(** * Upload handlers of the file-storage service: a shallow embedding

    The development follows the sources of the repository:
    - [src/api/assets.ts]      asset helpers ([mediaTypeToExt], [getAssetUrl],
      [getAssetDiskPath]);
    - [src/api/thumbnails.ts]  [handlerUploadThumbnail];
    - [src/api/videos.ts]      [handlerUploadVideo], [getVideoAspectRatio]
      (the copy in [assets.ts] has the same body), [processVideoForFastStart];
    - an earlier, direct-upload revision of [handlerUploadVideo].

    JavaScript numbers are IEEE-754 binary64 values: they are modelled by
    Rocq's primitive floats.  Handlers are programs in a small state, trace
    and exception monad over a world made of the scratch/asset file system,
    the record store and the object store. *)

From stdpp Require Import gmap strings list pretty.
From Stdlib Require Import ZArith Floats Ascii String.
From Stdlib.Strings Require Import Byte.

Local Open Scope Z_scope.
Local Open Scope string_scope.

(** ** Strings and buffers *)

(** [String.prototype.split] with a one-character separator: the pieces
    between the occurrences of [sep]; the empty string splits to [[""]]. *)
Fixpoint split (sep : ascii) (s : string) : list string :=
  match s with
  | EmptyString => [EmptyString]
  | String c rest =>
      if Ascii.eqb c sep then EmptyString :: split sep rest
      else match split sep rest with
           | [] => [String c EmptyString]
           | p :: ps => String c p :: ps
           end
  end.

(** Number of occurrences of a character in a string. *)
Fixpoint occurrences (sep : ascii) (s : string) : nat :=
  match s with
  | EmptyString => O
  | String c rest =>
      if Ascii.eqb c sep then S (occurrences sep rest) else occurrences sep rest
  end.

Definition slash : ascii := "/"%char.

(** One lowercase hexadecimal digit, as [Buffer.toString("hex")] prints it. *)
Definition hex_digit (n : N) : ascii :=
  match n with
  | 0%N => "0" | 1%N => "1" | 2%N => "2" | 3%N => "3"
  | 4%N => "4" | 5%N => "5" | 6%N => "6" | 7%N => "7"
  | 8%N => "8" | 9%N => "9" | 10%N => "a" | 11%N => "b"
  | 12%N => "c" | 13%N => "d" | 14%N => "e" | _ => "f"
  end%char.

Definition unhex_digit (c : ascii) : N :=
  let n := N_of_ascii c in
  if (n <? 58)%N then (n - 48)%N else (n - 87)%N.

(** [buf.toString("hex")]: two digits per byte, high nibble first. *)
Fixpoint toString_hex (buf : list byte) : string :=
  match buf with
  | [] => EmptyString
  | b :: rest =>
      let n := Byte.to_N b in
      String (hex_digit (n / 16)) (String (hex_digit (n mod 16)) (toString_hex rest))
  end.

(** Reading a hexadecimal string back, two digits at a time. *)
Fixpoint fromString_hex (fuel : nat) (s : string) : list byte :=
  match fuel, s with
  | S fuel', String hi (String lo rest) =>
      match Byte.of_N (unhex_digit hi * 16 + unhex_digit lo) with
      | Some b => b :: fromString_hex fuel' rest
      | None => []
      end
  | _, _ => []
  end.

(** ** src/api/assets.ts *)

Record ApiConfig := {
  jwtSecret : string;
  assetsRoot : string;
  port : string;
  s3Bucket : string;
  s3Region : string;
  s3CfDistribution : string;
}.

Definition mediaTypeToExt (mediaType : string) : string :=
  let parts := split slash mediaType in
  if negb (Nat.eqb (List.length parts) 2) then ".bin"
  else "." +:+ default EmptyString (parts !! 1%nat).

Definition getAssetUrl (cfg : ApiConfig) (assetPath : string) : string :=
  "http://localhost:" +:+ port cfg +:+ "/assets/" +:+ assetPath.

(** ** Records, requests and errors *)

(** The [Video] row of [../db/videos]: the two identifiers, the two URL
    columns the handlers assign, and the remaining columns kept as an opaque
    field map. *)
Record Video := {
  videoID : string;
  userID : string;
  videoURL : option string;
  thumbnailURL : option string;
  otherFields : gmap string string;
}.

(** [video.videoURL = url] and [video.thumbnailURL = url]. *)
Definition set_videoURL (url : string) (v : Video) : Video :=
  {| videoID := videoID v; userID := userID v; videoURL := Some url;
     thumbnailURL := thumbnailURL v; otherFields := otherFields v |}.

Definition set_thumbnailURL (url : string) (v : Video) : Video :=
  {| videoID := videoID v; userID := userID v; videoURL := videoURL v;
     thumbnailURL := Some url; otherFields := otherFields v |}.

(** What a handler can throw: the error classes of [./errors] that the
    handlers construct, a plain JavaScript [Error], and whatever an external
    collaborator (auth, file system, object store, record store, parser)
    raises. *)
Inductive Exn :=
| BadRequestError (msg : string)
| NotFoundError (msg : string)
| UserForbiddenError (msg : string)
| Error (msg : string)
| External (origin : string) (msg : string).

(** The error kinds of the taxonomy that the handlers' own classes map to. *)
Inductive ErrorKind := BadRequest | NotFound | Forbidden | OtherKind.

Definition kind_of (e : Exn) : ErrorKind :=
  match e with
  | BadRequestError _ => BadRequest
  | NotFoundError _ => NotFound
  | UserForbiddenError _ => Forbidden
  | _ => OtherKind
  end.

Inductive Outcome (A : Type) :=
| Returned (a : A)
| Threw (e : Exn).
Arguments Returned {A} a.
Arguments Threw {A} e.

(** A [File] of the multipart body; [size] is the byte length. *)
Record File := {
  type : string;
  bytes : list byte;
}.

Definition size (f : File) : Z := Z.of_nat (List.length (bytes f)).

(** [formData.get(name)] is a [File], a string, or [null]. *)
Inductive FormEntry :=
| FormFile (f : File)
| FormString (s : string).

Record BunRequest := {
  params : gmap string string;
  headers : list (string * string);
  formData : Outcome (gmap string FormEntry);
}.

(** Payload given to [respondWithJSON]: [null] or the video record. *)
Inductive Payload :=
| PNull
| PVideo (v : Video).

Record Response := {
  status : Z;
  payload : Payload;
}.

(** Modelled from the spec: [./json] is not among the sources; the response
    carries the status and the JSON payload it is given, [null] standing for
    a response without a body. *)
Definition respondWithJSON (st : Z) (p : Payload) : Response :=
  {| status := st; payload := p |}.

(** ** The outside world *)

(** Parsed [ffprobe -of json] output, as far as the probe reads it:
    [result.streams?.[0]] and the integer fields [width] and [height] of a
    stream ([None] for an absent field). *)
Record Stream := {
  width : option Z;
  height : option Z;
}.

Record ProbeJson := {
  streams : option (list Stream);
}.

(** A finished child process: captured streams, exit status, and the
    content it left in its output file, if it wrote one ([ffprobe] only
    reads; [ffmpeg] writes its last argument). *)
Record Process := {
  stdout : string;
  stderr : string;
  exited : Z;
  output_file : option (list byte);
}.

Inductive WriteOutcome :=
| Written
| WriteFailed (e : Exn) (partial : option (list byte)).

(** The collaborators the handlers import, and the outcome of each
    interaction of one run. *)
Record Env := {
  validateUUID : string -> bool;
  getBearerToken : list (string * string) -> Outcome string;
  validateJWT : string -> string -> Outcome string;
  JSON_parse : string -> Outcome ProbeJson;
  path_join : string -> string -> string;
  randomBytes : nat -> list byte;
  Bun_write_outcome : string -> WriteOutcome;
  Bun_spawn : list string -> Process;
  s3_outcome : string -> option Exn;
  updateVideo_outcome : Video -> option Exn;
}.

Record World := {
  fs : gmap string (list byte);
  db : gmap string Video;
  s3 : gmap string (string * list byte);
}.

Inductive Event :=
| BunWrite (path : string)
| BunDelete (path : string)
| BunSpawn (argv : list string)
| S3Upload (key : string) (path : string) (contentType : string)
| S3ClientWrite (key : string)
| UpdateVideo (v : Video)
| ConsoleError (msg : string).

(** ** The handler monad: state, trace of calls, exceptions *)

Definition M (A : Type) : Type := World -> Outcome A * World * list Event.

Definition ret {A} (a : A) : M A := fun w => (Returned a, w, []).

Definition bind {A B} (m : M A) (k : A -> M B) : M B :=
  fun w =>
    match m w with
    | (Returned a, w1, t1) =>
        match k a w1 with
        | (r, w2, t2) => (r, w2, (t1 ++ t2)%list)
        end
    | (Threw e, w1, t1) => (Threw e, w1, t1)
    end.

Definition throw {A} (e : Exn) : M A := fun w => (Threw e, w, []).

Definition emit (ev : Event) : M unit := fun w => (Returned tt, w, [ev]).

Definition lift {A} (o : Outcome A) : M A :=
  match o with
  | Returned a => ret a
  | Threw e => throw e
  end.

Definition get_world : M World := fun w => (Returned w, w, []).

Definition put_world (w' : World) : M unit := fun _ => (Returned tt, w', []).

(** [try { body } finally { fin }]: [fin] runs on both exits; the outcome of
    [body] stands unless [fin] itself throws. *)
Definition try_finally {A} (body : M A) (fin : M unit) : M A :=
  fun w =>
    match body w with
    | (r, w1, t1) =>
        match fin w1 with
        | (Returned _, w2, t2) => (r, w2, (t1 ++ t2)%list)
        | (Threw e, w2, t2) => (Threw e, w2, (t1 ++ t2)%list)
        end
    end.

(** [try { body } catch (error) { handler(error) }]. *)
Definition try_catch {A} (body : M A) (handler : Exn -> M A) : M A :=
  fun w =>
    match body w with
    | (Returned a, w1, t1) => (Returned a, w1, t1)
    | (Threw e, w1, t1) =>
        match handler e w1 with
        | (r, w2, t2) => (r, w2, (t1 ++ t2)%list)
        end
    end.

Declare Scope handler_scope.
Delimit Scope handler_scope with handler.
Notation "'do' x <- m ; k" := (bind m (fun x => k))
  (at level 10, x name, m at level 100, k at level 200) : handler_scope.
Notation "m ;; k" := (bind m (fun _ => k))
  (at level 100, k at level 200, right associativity) : handler_scope.
Local Open Scope handler_scope.

(** ** File system, record store and object store primitives *)

(** [Bun.write(path, file)]: writes the whole content, or throws, possibly
    leaving a partial file behind. *)
Definition Bun_write (env : Env) (path : string) (file : File) : M unit :=
  emit (BunWrite path) ;;
  do w <- get_world;
  match Bun_write_outcome env path with
  | Written =>
      put_world {| fs := <[path := bytes file]> (fs w); db := db w; s3 := s3 w |}
  | WriteFailed e partial =>
      match partial with
      | Some b => put_world {| fs := <[path := b]> (fs w); db := db w; s3 := s3 w |}
      | None => ret tt
      end ;;
      throw e
  end.

(** [Bun.file(path).delete()]: unlinks the file; throws when there is none.
    Unlinking a file that exists is taken to succeed. *)
Definition Bun_file_delete (path : string) : M unit :=
  emit (BunDelete path) ;;
  do w <- get_world;
  match fs w !! path with
  | Some _ => put_world {| fs := delete path (fs w); db := db w; s3 := s3 w |}
  | None => throw (External "fs" "ENOENT")
  end.

Definition console_error (msg : string) : M unit := emit (ConsoleError msg).

(** [getVideo(cfg.db, id)]: the row, or [undefined]. *)
Definition getVideo (videoId : string) : M (option Video) :=
  do w <- get_world; ret (db w !! videoId).

(** Modelled from the spec: [../db/videos] is not among the sources;
    [updateVideo(record)] hands the record to the store, which persists it
    under its id or fails. *)
Definition updateVideo (env : Env) (video : Video) : M unit :=
  emit (UpdateVideo video) ;;
  match updateVideo_outcome env video with
  | Some e => throw e
  | None =>
      do w <- get_world;
      put_world {| fs := fs w; db := <[videoID video := video]> (db w); s3 := s3 w |}
  end.

(** Modelled from the spec: [../s3] is not among the sources;
    [uploadVideoToS3(cfg, key, path, contentType)] streams the file at [path]
    to the object store under [key] with the given content type, or fails. *)
Definition uploadVideoToS3 (env : Env) (key path contentType : string) : M unit :=
  emit (S3Upload key path contentType) ;;
  do w <- get_world;
  match s3_outcome env key, fs w !! path with
  | Some e, _ => throw e
  | None, None => throw (External "s3" "ENOENT")
  | None, Some b =>
      put_world {| fs := fs w; db := db w; s3 := <[key := (contentType, b)]> (s3 w) |}
  end.

(** [cfg.s3Client.file(key, {bucket, region}).write(file)] of the earlier
    revision: the uploaded file itself is written under [key]. *)
Definition s3Client_write (env : Env) (key : string) (file : File) : M unit :=
  emit (S3ClientWrite key) ;;
  match s3_outcome env key with
  | Some e => throw e
  | None =>
      do w <- get_world;
      put_world {| fs := fs w; db := db w; s3 := <[key := (type file, bytes file)]> (s3 w) |}
  end.

(** JavaScript truthiness of an optional string and of an optional number. *)
Definition truthy_string (o : option string) : bool :=
  match o with
  | Some s => negb (String.eqb s "")
  | None => false
  end.

Definition truthy_number (o : option Z) : bool :=
  match o with
  | Some z => negb (z =? 0)%Z
  | None => false
  end.

(** ** src/api/videos.ts *)

Module Videos.

Definition MAX_UPLOAD_SIZE : Z := Z.shiftl 1 30.

(** The number a JSON integer denotes: the nearest binary64 value. *)
Definition float_of_Z (z : Z) : float :=
  SF2Prim (binary_normalize prec emax z 0 false).

(** The literal [0.1]: the binary64 value nearest to one tenth. *)
Definition one_tenth : float := 0x1.999999999999ap-4.

Definition ffprobe_argv (filePath : string) : list string :=
  ["ffprobe"; "-v"; "error"; "-select_streams"; "v:0"; "-show_entries";
   "stream=width,height"; "-of"; "json"; filePath].

Definition getVideoAspectRatio (env : Env) (filePath : string) : M string :=
  emit (BunSpawn (ffprobe_argv filePath)) ;;
  let video := Bun_spawn env (ffprobe_argv filePath) in
  let exitCode := exited video in
  if negb (exitCode =? 0)%Z then
    throw (Error ("ffprobe failed with exit code " +:+ pretty exitCode +:+ ": "
                  +:+ stderr video))
  else
    do result <- lift (JSON_parse env (stdout video));
    match streams result ≫= head with
    | None => throw (Error "Could not extract video dimensions")
    | Some stream =>
        if negb (truthy_number (width stream)) || negb (truthy_number (height stream))
        then throw (Error "Could not extract video dimensions")
        else
          let w := default 0%Z (width stream) in
          let h := default 0%Z (height stream) in
          let ratio := (float_of_Z w / float_of_Z h)%float in
          if (abs (ratio - 16 / 9) <? one_tenth)%float then ret "landscape"
          else if (abs (ratio - 9 / 16) <? one_tenth)%float then ret "portrait"
          else ret "other"
    end.

Definition ffmpeg_argv (filePath processedFilePath : string) : list string :=
  ["ffmpeg"; "-i"; filePath; "-movflags"; "faststart"; "-codec"; "copy";
   "-f"; "mp4"; processedFilePath].

Definition processVideoForFastStart (env : Env) (filePath : string) : M string :=
  let processedFilePath := filePath +:+ ".processed" in
  emit (BunSpawn (ffmpeg_argv filePath processedFilePath)) ;;
  let process := Bun_spawn env (ffmpeg_argv filePath processedFilePath) in
  do w <- get_world;
  match output_file process with
  | Some b => put_world {| fs := <[processedFilePath := b]> (fs w); db := db w; s3 := s3 w |}
  | None => ret tt
  end ;;
  let exitCode := exited process in
  if negb (exitCode =? 0)%Z then
    throw (Error ("ffmpeg failed with exit code " +:+ pretty exitCode +:+ ": "
                  +:+ stderr process))
  else ret processedFilePath.

(** The random file key drawn at line 57 and the scratch path of line 60. *)
Definition fileKey0 (env : Env) : string :=
  toString_hex (randomBytes env 32) +:+ ".mp4".

Definition tempPath (env : Env) : string := "/tmp/" +:+ fileKey0 env.

Definition handlerUploadVideo (env : Env) (cfg : ApiConfig) (req : BunRequest)
  : M Response :=
  let videoId := params req !! "videoId" in
  if negb (truthy_string videoId) then throw (BadRequestError "Invalid video ID")
  else
  let videoId := default "" videoId in
  if negb (validateUUID env videoId) then throw (BadRequestError "Invalid video ID format")
  else
  do token <- lift (getBearerToken env (headers req));
  do userID' <- lift (validateJWT env token (jwtSecret cfg));
  do video <- getVideo videoId;
  match video with
  | None => throw (BadRequestError "Video not found")
  | Some video =>
  if negb (String.eqb (userID video) userID')
  then throw (UserForbiddenError "You are not the owner of this video")
  else
  do formData <- lift (formData req);
  match formData !! "video" with
  | None | Some (FormString _) => throw (BadRequestError "Invalid video file")
  | Some (FormFile file) =>
  if (size file >? MAX_UPLOAD_SIZE)%Z then
    throw (BadRequestError ("Video file exceeds maximum size of "
                            +:+ pretty MAX_UPLOAD_SIZE +:+ " bytes"))
  else
  let mediaType := type file in
  if negb (String.eqb mediaType "video/mp4") then
    throw (BadRequestError ("Invalid Content-Type for video: " +:+ type file
                            +:+ ". Only video/mp4 is supported."))
  else
  let fileKey := fileKey0 env in
  let tempPath := "/tmp/" +:+ fileKey in
  do video' <-
    try_finally
      (Bun_write env tempPath file ;;
       do aspectRatio <- getVideoAspectRatio env tempPath;
       do processedPath <- processVideoForFastStart env tempPath;
       let fileKey := aspectRatio +:+ "/" +:+ fileKey in
       uploadVideoToS3 env fileKey processedPath mediaType ;;
       let video := set_videoURL ("https://" +:+ s3CfDistribution cfg +:+ "/" +:+ fileKey) video in
       updateVideo env video ;;
       ret video)
      (try_catch
         (Bun_file_delete tempPath)
         (fun error => console_error "Error cleaning up temporary file"));
  ret (respondWithJSON 200 (PVideo video'))
  end
  end.

End Videos.

(** ** src/api/thumbnails.ts *)

Module Thumbnails.

Definition MAX_UPLOAD_SIZE : Z := Z.shiftl 10 20.

Definition getAssetDiskPath (env : Env) (cfg : ApiConfig) (assetPath : string) : string :=
  path_join env (assetsRoot cfg) assetPath.

Definition handlerUploadThumbnail (env : Env) (cfg : ApiConfig) (req : BunRequest)
  : M Response :=
  let videoId := params req !! "videoId" in
  if negb (truthy_string videoId) then throw (BadRequestError "Invalid video ID")
  else
  let videoId := default "" videoId in
  do token <- lift (getBearerToken env (headers req));
  do userID' <- lift (validateJWT env token (jwtSecret cfg));
  do video <- getVideo videoId;
  match video with
  | None => throw (NotFoundError "Couldn't find video")
  | Some video =>
  if negb (String.eqb (userID video) userID')
  then throw (UserForbiddenError "You are not the owner of this video")
  else
  do formData <- lift (formData req);
  match formData !! "thumbnail" with
  | None | Some (FormString _) => throw (BadRequestError "Invalid thumbnail file")
  | Some (FormFile file) =>
  if (size file >? MAX_UPLOAD_SIZE)%Z then
    throw (BadRequestError ("Thumbnail file exceeds maximum size of "
                            +:+ pretty MAX_UPLOAD_SIZE +:+ " bytes"))
  else
  let mediaType := type file in
  if negb (truthy_string (Some mediaType))
  then throw (BadRequestError "Missing Content-Type for thumbnail")
  else
  let ext := mediaTypeToExt mediaType in
  let filename := videoId +:+ ext in
  let assetDiskPath := getAssetDiskPath env cfg filename in
  Bun_write env assetDiskPath file ;;
  let urlPath := getAssetUrl cfg filename in
  let video := set_thumbnailURL urlPath video in
  updateVideo env video ;;
  ret (respondWithJSON 200 (PVideo video))
  end
  end.

End Thumbnails.

(** ** The earlier revision of the video handler (direct upload) *)

Module DirectUpload.

Definition MAX_UPLOAD_SIZE : Z := Z.shiftl 1 30.

Definition handlerUploadVideo (env : Env) (cfg : ApiConfig) (req : BunRequest)
  : M Response :=
  let videoId := params req !! "videoId" in
  if negb (truthy_string videoId) then throw (BadRequestError "Invalid video ID")
  else
  let videoId := default "" videoId in
  if negb (validateUUID env videoId) then throw (BadRequestError "Invalid video ID format")
  else
  do token <- lift (getBearerToken env (headers req));
  do userID' <- lift (validateJWT env token (jwtSecret cfg));
  do video <- getVideo videoId;
  match video with
  | None => throw (BadRequestError "Video not found")
  | Some video =>
  if negb (String.eqb (userID video) userID')
  then throw (UserForbiddenError "You are not the owner of this video")
  else
  do formData <- lift (formData req);
  match formData !! "video" with
  | None | Some (FormString _) => throw (BadRequestError "Invalid video file")
  | Some (FormFile file) =>
  if (size file >? MAX_UPLOAD_SIZE)%Z then
    throw (BadRequestError ("Video file exceeds maximum size of "
                            +:+ pretty MAX_UPLOAD_SIZE +:+ " bytes"))
  else
  let mediaType := type file in
  if negb (String.eqb mediaType "video/mp4") then
    throw (BadRequestError ("Invalid Content-Type for video: " +:+ type file
                            +:+ ". Only video/mp4 is supported."))
  else
  let fileKey := toString_hex (randomBytes env 32) +:+ ".mp4" in
  let tempPath := "/tmp/" +:+ fileKey in
  try_finally
    (Bun_write env tempPath file ;;
     s3Client_write env fileKey file ;;
     let s3Url := "https://" +:+ s3Bucket cfg +:+ ".s3." +:+ s3Region cfg
                  +:+ ".amazonaws.com/" +:+ fileKey in
     let video := set_videoURL s3Url video in
     updateVideo env video)
    (try_catch
       (Bun_file_delete tempPath)
       (fun error => console_error "Error cleaning up temporary file")) ;;
  ret (respondWithJSON 200 PNull)
  end
  end.

End DirectUpload.

(** ** The decision rule and key layout in the specification's words *)

Inductive Classification := landscape | portrait | other.

Definition Classification_name (c : Classification) : string :=
  match c with
  | landscape => "landscape"
  | portrait => "portrait"
  | other => "other"
  end.

(** Distance of the ratio [width/height] to a target, in binary64. *)
Definition deviation (width height : Z) (target : float) : float :=
  abs (Videos.float_of_Z width / Videos.float_of_Z height - target)%float.

Definition near (width height : Z) (target : float) : Prop :=
  (deviation width height target <? Videos.one_tenth)%float = true.

Inductive classifies (width height : Z) : Classification -> Prop :=
| is_landscape :
    near width height (16 / 9)%float -> classifies width height landscape
| is_portrait :
    ~ near width height (16 / 9)%float -> near width height (9 / 16)%float ->
    classifies width height portrait
| is_other :
    ~ near width height (16 / 9)%float -> ~ near width height (9 / 16)%float ->
    classifies width height other.

(** The same rule over exact rationals, for comparison at the thresholds:
    [|w/h - 16/9| < 1/10] is [|9w - 16h| * 10 < 9h] and
    [|w/h - 9/16| < 1/10] is [|16w - 9h| * 10 < 16h], for [h > 0]. *)
Definition classify_exact (w h : Z) : Classification :=
  if (Z.abs (9 * w - 16 * h) * 10 <? 9 * h)%Z then landscape
  else if (Z.abs (16 * w - 9 * h) * 10 <? 16 * h)%Z then portrait
  else other.

(** A concrete world for the examples below. *)
Module Example.

Definition vid : string := "7f2b0f5e-6c1d-4a57-9d8e-2b1c3a4d5e6f".

Definition alice_video : Video :=
  {| videoID := vid; userID := "alice"; videoURL := None; thumbnailURL := None;
     otherFields := {[ "title" := "Holiday" ]} |}.

Definition cfg : ApiConfig :=
  {| jwtSecret := "secret"; assetsRoot := "/srv/assets"; port := "8091";
     s3Bucket := "tubely"; s3Region := "us-east-2";
     s3CfDistribution := "d111.cloudfront.net" |}.

Definition mp4 : File := {| type := "video/mp4"; bytes := [Byte.x00; Byte.x01] |}.
Definition png : File := {| type := "image/png"; bytes := [Byte.x89; Byte.x50] |}.

Definition req (field : string) (f : File) : BunRequest :=
  {| params := {[ "videoId" := vid ]};
     headers := [("Authorization", "Bearer t")];
     formData := Returned {[ field := FormFile f ]} |}.

Definition w0 : World := {| fs := ∅; db := {[ vid := alice_video ]}; s3 := ∅ |}.
Definition w_empty : World := {| fs := ∅; db := ∅; s3 := ∅ |}.

Definition is_ffmpeg (argv : list string) : bool :=
  match argv with
  | cmd :: _ => String.eqb cmd "ffmpeg"
  | [] => false
  end.

(** Every collaborator succeeds; the probe reports [pw] x [ph]; the remux
    process exits with [ffmpeg_exit] after writing its output file. *)
Definition env (pw ph ffmpeg_exit : Z) (db_failure : option Exn) : Env :=
  {| validateUUID := fun s => Nat.eqb (String.length s) 36;
     getBearerToken := fun _ => Returned "t";
     validateJWT := fun _ _ => Returned "alice";
     JSON_parse := fun _ =>
       Returned {| streams := Some [ {| width := Some pw; height := Some ph |} ] |};
     path_join := fun a b => a +:+ "/" +:+ b;
     randomBytes := fun n => replicate n Byte.xab;
     Bun_write_outcome := fun _ => Written;
     Bun_spawn := fun argv =>
       if is_ffmpeg argv
       then {| stdout := ""; stderr := "moov"; exited := ffmpeg_exit;
               output_file := Some [Byte.x02] |}
       else {| stdout := "{}"; stderr := ""; exited := 0; output_file := None |};
     s3_outcome := fun _ => None;
     updateVideo_outcome := fun _ => db_failure |}.

End Example.

From Stdlib Require Uint63.

(** ** src/api/assets.ts: random asset names *)

(** The alphabet of [buf.toString("base64url")]: URL-safe, no padding. *)
Definition base64url_alphabet : string :=
  "ABCDEFGHIJKLMNOPQRSTUVWXYZabcdefghijklmnopqrstuvwxyz0123456789-_".

Definition base64url_digit (n : N) : ascii :=
  default "_"%char (String.get (N.to_nat n) base64url_alphabet).

Definition unbase64url_digit (c : ascii) : N :=
  let n := N_of_ascii c in
  if (65 <=? n)%N && (n <=? 90)%N then (n - 65)%N
  else if (97 <=? n)%N && (n <=? 122)%N then (n - 71)%N
  else if (48 <=? n)%N && (n <=? 57)%N then (n + 4)%N
  else if (n =? 45)%N then 62%N
  else 63%N.

(** Three bytes give four digits; a last group of one or two bytes gives
    two or three digits. *)
Fixpoint toString_base64url (buf : list byte) : string :=
  match buf with
  | [] => EmptyString
  | [a] =>
      let n := Byte.to_N a in
      String (base64url_digit (n / 4))
        (String (base64url_digit (n mod 4 * 16)) EmptyString)
  | [a; b] =>
      let n := (Byte.to_N a * 256 + Byte.to_N b)%N in
      String (base64url_digit (n / 1024))
        (String (base64url_digit (n / 16 mod 64))
           (String (base64url_digit (n mod 16 * 4)) EmptyString))
  | a :: b :: c :: rest =>
      let n := (Byte.to_N a * 65536 + Byte.to_N b * 256 + Byte.to_N c)%N in
      String (base64url_digit (n / 262144))
        (String (base64url_digit (n / 4096 mod 64))
           (String (base64url_digit (n / 64 mod 64))
              (String (base64url_digit (n mod 64)) (toString_base64url rest))))
  end.

Definition byte_of_N (n : N) : byte := default Byte.x00 (Byte.of_N n).

(** Reading a base64url string back. *)
Fixpoint fromString_base64url (s : string) : list byte :=
  match s with
  | String c0 (String c1 (String c2 (String c3 rest))) =>
      let n := (((unbase64url_digit c0 * 64 + unbase64url_digit c1) * 64
                 + unbase64url_digit c2) * 64 + unbase64url_digit c3)%N in
      byte_of_N (n / 65536) :: byte_of_N (n / 256 mod 256) :: byte_of_N (n mod 256)
      :: fromString_base64url rest
  | String c0 (String c1 (String c2 EmptyString)) =>
      let n := ((unbase64url_digit c0 * 64 + unbase64url_digit c1) * 64
                + unbase64url_digit c2)%N in
      [byte_of_N (n / 1024); byte_of_N (n / 4 mod 256)]
  | String c0 (String c1 EmptyString) =>
      let n := (unbase64url_digit c0 * 64 + unbase64url_digit c1)%N in
      [byte_of_N (n / 16)]
  | _ => []
  end.

Definition getAssetPath (env : Env) (mediaType : string) : string :=
  let base := randomBytes env 32 in
  let id := toString_base64url base in
  let ext := mediaTypeToExt mediaType in
  id +:+ ext.

(** ** Vocabulary for the statements about runs *)

Definition is_hex_digit (c : ascii) : bool :=
  let n := N_of_ascii c in
  ((48 <=? n)%N && (n <=? 57)%N) || ((97 <=? n)%N && (n <=? 102)%N).

Fixpoint all_chars (P : ascii -> bool) (s : string) : bool :=
  match s with
  | EmptyString => true
  | String c rest => P c && all_chars P rest
  end.

(** [pieces.join(sep)]. *)
Fixpoint join (sep : ascii) (pieces : list string) : string :=
  match pieces with
  | [] => EmptyString
  | [p] => p
  | p :: ps => p +:+ String sep (join sep ps)
  end.

(** The two authentication calls every handler starts with. *)
Definition authenticate (env : Env) (cfg : ApiConfig) (req : BunRequest)
    : Outcome string :=
  match getBearerToken env (headers req) with
  | Returned token => validateJWT env token (jwtSecret cfg)
  | Threw e => Threw e
  end.

(** The calls of the video pipeline, in program order, for a given
    classification and record. *)
Definition pipeline_calls (env : Env) (cfg : ApiConfig) (aspectRatio : string)
    (video : Video) : list Event :=
  let tmp := Videos.tempPath env in
  let key := aspectRatio +:+ "/" +:+ Videos.fileKey0 env in
  [BunWrite tmp;
   BunSpawn (Videos.ffprobe_argv tmp);
   BunSpawn (Videos.ffmpeg_argv tmp (tmp +:+ ".processed"));
   S3Upload key (tmp +:+ ".processed") "video/mp4";
   UpdateVideo (set_videoURL ("https://" +:+ s3CfDistribution cfg +:+ "/" +:+ key) video)].

Definition cleanup_log : list Event := [ConsoleError "Error cleaning up temporary file"].

(** The calls of the earlier revision, in program order. *)
Definition direct_calls (env : Env) (cfg : ApiConfig) (video : Video) : list Event :=
  let key := toString_hex (randomBytes env 32) +:+ ".mp4" in
  [BunWrite ("/tmp/" +:+ key);
   S3ClientWrite key;
   UpdateVideo (set_videoURL ("https://" +:+ s3Bucket cfg +:+ ".s3." +:+ s3Region cfg
                              +:+ ".amazonaws.com/" +:+ key) video)].

(** Dimensions whose exact ratio lies exactly one tenth from a target. *)
Definition on_threshold (w h : Z) : bool :=
  (Z.abs (9 * w - 16 * h) * 10 =? 9 * h)%Z || (Z.abs (16 * w - 9 * h) * 10 =? 16 * h)%Z.

(** The exact rule with the thresholds as binary64 settles them: a ratio
    exactly one tenth below 16/9, or exactly one tenth from 9/16, is within
    tolerance; a ratio exactly one tenth above 16/9 is not. *)
Definition classify_interval (w h : Z) : Classification :=
  if (151 * h <=? 90 * w)%Z && (90 * w <? 169 * h)%Z then landscape
  else if (37 * h <=? 80 * w)%Z && (80 * w <=? 53 * h)%Z then portrait
  else other.

(** The decision of the probe and the interval rule on machine integers,
    and their comparison over every size up to [n] x [n]. *)
Module Sizes.
Import Uint63.

Definition classify_prim (w h : int) : Classification :=
  let ratio := (of_uint63 w / of_uint63 h)%float in
  if (abs (ratio - 16 / 9) <? Videos.one_tenth)%float then landscape
  else if (abs (ratio - 9 / 16) <? Videos.one_tenth)%float then portrait
  else other.

Definition interval_prim (w h : int) : Classification :=
  if ((151 * h <=? 90 * w) && (90 * w <? 169 * h))%uint63 then landscape
  else if ((37 * h <=? 80 * w) && (80 * w <=? 53 * h))%uint63 then portrait
  else other.

Definition Classification_eqb (c c' : Classification) : bool :=
  match c, c' with
  | landscape, landscape | portrait, portrait | other, other => true
  | _, _ => false
  end.

Fixpoint all_heights (n : nat) (w h : int) : bool :=
  match n with
  | O => true
  | S n' => Classification_eqb (classify_prim w h) (interval_prim w h)
            && all_heights n' w (h + 1)%uint63
  end.

Fixpoint all_widths (n m : nat) (w : int) : bool :=
  match n with
  | O => true
  | S n' => all_heights m w 1%uint63 && all_widths n' m (w + 1)%uint63
  end.

Definition all_sizes (n : nat) : bool := all_widths n n 1%uint63.

End Sizes.

(** Variations of the example environment, one collaborator at a time. *)
Module Scenario.

Definition base : Env := Example.env 1920 1080 0 None.

Definition with_auth (token : Outcome string) (user : Outcome string) (e : Env) : Env :=
  {| validateUUID := validateUUID e;
     getBearerToken := fun _ => token;
     validateJWT := fun _ _ => user;
     JSON_parse := JSON_parse e; path_join := path_join e;
     randomBytes := randomBytes e; Bun_write_outcome := Bun_write_outcome e;
     Bun_spawn := Bun_spawn e; s3_outcome := s3_outcome e;
     updateVideo_outcome := updateVideo_outcome e |}.

Definition with_write (o : WriteOutcome) (e : Env) : Env :=
  {| validateUUID := validateUUID e; getBearerToken := getBearerToken e;
     validateJWT := validateJWT e; JSON_parse := JSON_parse e;
     path_join := path_join e; randomBytes := randomBytes e;
     Bun_write_outcome := fun _ => o;
     Bun_spawn := Bun_spawn e; s3_outcome := s3_outcome e;
     updateVideo_outcome := updateVideo_outcome e |}.

Definition with_s3 (o : option Exn) (e : Env) : Env :=
  {| validateUUID := validateUUID e; getBearerToken := getBearerToken e;
     validateJWT := validateJWT e; JSON_parse := JSON_parse e;
     path_join := path_join e; randomBytes := randomBytes e;
     Bun_write_outcome := Bun_write_outcome e;
     Bun_spawn := Bun_spawn e; s3_outcome := fun _ => o;
     updateVideo_outcome := updateVideo_outcome e |}.

Definition with_probe (p : Process) (parsed : Outcome ProbeJson) (e : Env) : Env :=
  {| validateUUID := validateUUID e; getBearerToken := getBearerToken e;
     validateJWT := validateJWT e; JSON_parse := fun _ => parsed;
     path_join := path_join e; randomBytes := randomBytes e;
     Bun_write_outcome := Bun_write_outcome e;
     Bun_spawn := fun argv => if Example.is_ffmpeg argv then Bun_spawn e argv else p;
     s3_outcome := s3_outcome e;
     updateVideo_outcome := updateVideo_outcome e |}.

Definition db_busy : Exn := External "db" "SQLITE_BUSY".
Definition s3_down : Exn := External "s3" "ECONNREFUSED".
Definition disk_full : Exn := External "fs" "ENOSPC".
Definition no_token : Exn := External "auth" "Malformed authorization header".

Definition jpeg : File := {| type := "image/jpeg"; bytes := [Byte.xff; Byte.xd8] |}.
Definition png2 : File := {| type := "image/png"; bytes := [Byte.x89; Byte.x51; Byte.x52] |}.

End Scenario.

(** * Properties *)

(** ** Splitting and hexadecimal encoding *)

Lemma split_length sep s : List.length (split sep s) = S (occurrences sep s).
Proof.
  induction s as [|c s IH]; simpl; [reflexivity|].
  destruct (Ascii.eqb c sep); simpl; [by rewrite IH|].
  destruct (split sep s) as [|p ps]; simpl in *; [discriminate | exact IH].
Qed.

Lemma split_no_sep sep s : occurrences sep s = O -> split sep s = [s].
Proof.
  induction s as [|c s IH]; simpl; [reflexivity|].
  destruct (Ascii.eqb c sep); [discriminate|].
  intros H. by rewrite (IH H).
Qed.

Lemma split_app sep t s :
  occurrences sep t = O -> split sep (t +:+ String sep s) = t :: split sep s.
Proof.
  induction t as [|c t IH]; simpl.
  - intros _. by rewrite Ascii.eqb_refl.
  - destruct (Ascii.eqb c sep); [discriminate|].
    intros H. by rewrite (IH H).
Qed.

Lemma unhex_hex_digit (b : byte) :
  Byte.of_N (unhex_digit (hex_digit (Byte.to_N b / 16)) * 16
             + unhex_digit (hex_digit (Byte.to_N b mod 16))) = Some b.
Proof. destruct b; reflexivity. Qed.

Lemma fromString_toString_hex (buf : list byte) (fuel : nat) :
  (List.length buf <= fuel)%nat -> fromString_hex fuel (toString_hex buf) = buf.
Proof.
  revert fuel. induction buf as [|b buf IH]; intros fuel Hf.
  - destruct fuel; reflexivity.
  - destruct fuel as [|fuel]; [simpl in Hf; lia|].
    cbn [toString_hex fromString_hex]. rewrite unhex_hex_digit.
    f_equal. apply IH. simpl in Hf. lia.
Qed.

Lemma toString_hex_length (buf : list byte) :
  String.length (toString_hex buf) = (2 * List.length buf)%nat.
Proof. induction buf as [|b buf IH]; simpl; [reflexivity | rewrite IH; lia]. Qed.

Lemma toString_hex_inj (b1 b2 : list byte) :
  toString_hex b1 = toString_hex b2 -> b1 = b2.
Proof.
  intros H.
  assert (Hlen : List.length b1 = List.length b2).
  { apply (f_equal String.length) in H. rewrite !toString_hex_length in H. lia. }
  rewrite <- (fromString_toString_hex b1 (List.length b1)) by lia.
  rewrite <- (fromString_toString_hex b2 (List.length b1)) by lia.
  by rewrite H.
Qed.

(** C8: a content type [type/subtype] with exactly one slash maps to
    [.subtype]; any string whose number of slashes is not one (none, or more
    than one) maps to the generic extension [.bin]. *)
Theorem mediaTypeToExt_subtype_or_bin :
  (forall t sub : string,
      occurrences slash t = O -> occurrences slash sub = O ->
      mediaTypeToExt (t +:+ "/" +:+ sub) = "." +:+ sub)
  /\ (forall s : string, occurrences slash s <> 1%nat -> mediaTypeToExt s = ".bin").
Proof.
  split.
  - intros t sub Ht Hsub. unfold mediaTypeToExt.
    change ("/" +:+ sub) with (String slash sub).
    rewrite (split_app slash t sub Ht), (split_no_sep slash sub Hsub).
    reflexivity.
  - intros s Hs. unfold mediaTypeToExt. rewrite split_length.
    destruct (occurrences slash s) as [|[|n]]; [reflexivity | congruence | reflexivity].
Qed.

Lemma mediaTypeToExt_subtype_or_bin_witness :
  mediaTypeToExt ("image" +:+ "/" +:+ "png") = "." +:+ "png"
  /\ mediaTypeToExt "a/b/c" = ".bin".
Proof.
  split.
  - apply (proj1 mediaTypeToExt_subtype_or_bin "image" "png"); reflexivity.
  - apply (proj2 mediaTypeToExt_subtype_or_bin "a/b/c"). simpl. lia.
Defined.

(** ** Symbolic execution of handlers *)

(** One step: unfold the monad and the primitives, then split on the first
    scrutinee that is itself free of case analysis. *)
Ltac unfold_run H :=
  cbv beta iota zeta delta
    [bind ret throw emit lift get_world put_world try_finally try_catch
     getVideo updateVideo uploadVideoToS3 s3Client_write Bun_write
     Bun_file_delete console_error respondWithJSON
     Videos.processVideoForFastStart
     negb orb fs db s3] in H.

Ltac unfold_probe H :=
  cbv beta iota zeta delta
    [bind ret throw emit lift Videos.getVideoAspectRatio negb orb] in H.

Ltac split_run H :=
  match type of H with
  | context [match ?x with _ => _ end] =>
      lazymatch x with
      | context [match _ with _ => _ end] => fail
      | _ => let E := fresh "E" in destruct x eqn:E
      end
  end.

Ltac run H :=
  unfold_run H; repeat (split_run H; unfold_run H; try discriminate H);
  cbn [app] in H.

Ltac run_probe H :=
  unfold_probe H; repeat (split_run H; unfold_probe H; try discriminate H);
  cbn [app] in H.


(** The scratch path and its remuxed sibling are different files. *)
Lemma append_suffix_neq (s suffix : string) :
  suffix <> "" -> s +:+ suffix <> s.
Proof.
  intros Hne Heq. apply Hne.
  induction s as [|c s IH]; simpl in Heq; [exact Heq|].
  injection Heq as Heq. by apply IH.
Qed.

Lemma getVideoAspectRatio_pure env path w r w' tr :
  Videos.getVideoAspectRatio env path w = (r, w', tr) ->
  w' = w /\ tr = [BunSpawn (Videos.ffprobe_argv path)]
  /\ forall w1, Videos.getVideoAspectRatio env path w1 = (r, w1, tr).
Proof.
  intros H. run_probe H; injection H as <- <- <-; repeat split; intros w1;
    unfold Videos.getVideoAspectRatio;
    cbv beta iota zeta delta [bind ret throw emit lift negb orb app];
    rewrite ?E, ?E0, ?E1, ?E2, ?E3, ?E4, ?E5; reflexivity.
Qed.

(** ** The probe *)

(** The two targets as the binary64 constants they evaluate to. *)
Ltac fold_targets H :=
  let a := eval vm_compute in (16 / 9)%float in
  let b := eval vm_compute in (9 / 16)%float in
  change (16 / 9)%float with a in H; change (9 / 16)%float with b in H.

Lemma near_dec width height target :
  {near width height target} + {~ near width height target}.
Proof. unfold near. destruct (_ <? _)%float; [left | right]; congruence. Qed.

Lemma classifies_functional width height c c' :
  classifies width height c -> classifies width height c' -> c = c'.
Proof. intros [] []; try reflexivity; contradiction. Qed.

(** A probe that exits with status 0 and reports non-zero integer
    dimensions returns the name of the class the rule assigns. *)
Lemma getVideoAspectRatio_classifies env path w wd ht more :
  exited (Bun_spawn env (Videos.ffprobe_argv path)) = 0 ->
  JSON_parse env (stdout (Bun_spawn env (Videos.ffprobe_argv path)))
  = Returned {| streams := Some ({| width := Some wd; height := Some ht |} :: more) |} ->
  wd <> 0 -> ht <> 0 ->
  exists c, classifies wd ht c
    /\ Videos.getVideoAspectRatio env path w
       = (Returned (Classification_name c), w, [BunSpawn (Videos.ffprobe_argv path)]).
Proof.
  intros Hexit Hjson Hw Hh. unfold Videos.getVideoAspectRatio.
  cbv beta iota zeta delta [bind ret throw emit lift app].
  rewrite Hexit, Hjson. simpl.
  destruct (Z.eqb_spec wd 0) as [|_]; [contradiction|].
  destruct (Z.eqb_spec ht 0) as [|_]; [contradiction|]. simpl.
  destruct (near_dec wd ht (16 / 9)%float) as [Hl|Hl].
  - exists landscape. split; [by constructor|].
    unfold near, deviation in Hl. fold_targets Hl. by rewrite Hl.
  - destruct (near_dec wd ht (9 / 16)%float) as [Hp|Hp].
    + exists portrait. split; [by constructor|].
      unfold near, deviation in Hl, Hp. apply not_true_is_false in Hl.
      fold_targets Hl. fold_targets Hp. by rewrite Hl, Hp.
    + exists other. split; [by constructor|].
      unfold near, deviation in Hl, Hp.
      apply not_true_is_false in Hl. apply not_true_is_false in Hp.
      fold_targets Hl. fold_targets Hp. by rewrite Hl, Hp.
Qed.

(** Conversely, whatever the probe returns is the name of the class of the
    dimensions of the first stream it parsed. *)
Lemma getVideoAspectRatio_returned env path w r w' tr :
  Videos.getVideoAspectRatio env path w = (Returned r, w', tr) ->
  exists wd ht more c,
    JSON_parse env (stdout (Bun_spawn env (Videos.ffprobe_argv path)))
    = Returned {| streams := Some ({| width := Some wd; height := Some ht |} :: more) |}
    /\ exited (Bun_spawn env (Videos.ffprobe_argv path)) = 0
    /\ wd <> 0 /\ ht <> 0
    /\ classifies wd ht c /\ r = Classification_name c.
Proof.
  intros H.
  assert (Hshape : exists wd ht more,
             JSON_parse env (stdout (Bun_spawn env (Videos.ffprobe_argv path)))
             = Returned {| streams := Some ({| width := Some wd; height := Some ht |} :: more) |}
             /\ exited (Bun_spawn env (Videos.ffprobe_argv path)) = 0
             /\ wd <> 0 /\ ht <> 0).
  { pose proof H as H0. run_probe H0;
      destruct a as [[[|[[wd|] [ht|]] more]|]]; simplify_eq/=;
      exists wd, ht, more; repeat split; try assumption;
      try (by apply Z.eqb_eq); intros ->; discriminate. }
  destruct Hshape as (wd & ht & more & Hjson & Hexit & Hwd & Hht).
  destruct (getVideoAspectRatio_classifies env path w wd ht more Hexit Hjson Hwd Hht)
    as (c & Hc & Hrun).
  rewrite Hrun in H. injection H as <- _ _.
  exists wd, ht, more, c. repeat split; assumption || reflexivity.
Qed.

(** C5: for positive integer dimensions reported by a successful probe the
    classification is the function of the decision rule (landscape if the
    ratio is within 0.1 of 16/9, else portrait if within 0.1 of 9/16, else
    other), evaluated on JavaScript numbers; it is single-valued, and
    1920x1080 is landscape, 1080x1920 portrait, 1000x1000 other. *)
Theorem getVideoAspectRatio_decision_rule :
  (forall env path w wd ht more,
      0 < wd -> 0 < ht ->
      exited (Bun_spawn env (Videos.ffprobe_argv path)) = 0 ->
      JSON_parse env (stdout (Bun_spawn env (Videos.ffprobe_argv path)))
      = Returned {| streams := Some ({| width := Some wd; height := Some ht |} :: more) |} ->
      exists c, classifies wd ht c
        /\ (forall c', classifies wd ht c' -> c' = c)
        /\ Videos.getVideoAspectRatio env path w
           = (Returned (Classification_name c), w, [BunSpawn (Videos.ffprobe_argv path)]))
  /\ classifies 1920 1080 landscape
  /\ classifies 1080 1920 portrait
  /\ classifies 1000 1000 other.
Proof.
  split; [|repeat split].
  - intros env path w wd ht more Hwd Hht Hexit Hjson.
    destruct (getVideoAspectRatio_classifies env path w wd ht more Hexit Hjson)
      as (c & Hc & Hrun); [lia | lia |].
    exists c. repeat split; [exact Hc | | exact Hrun].
    intros c' Hc'. exact (classifies_functional wd ht c' c Hc' Hc).
  - apply is_landscape. vm_compute. reflexivity.
  - apply is_portrait; [vm_compute; discriminate | vm_compute; reflexivity].
  - apply is_other; vm_compute; discriminate.
Qed.

Lemma getVideoAspectRatio_decision_rule_witness :
  exists c, classifies 1280 720 c
    /\ (forall c', classifies 1280 720 c' -> c' = c)
    /\ Videos.getVideoAspectRatio (Example.env 1280 720 0 None) "/tmp/a.mp4" Example.w0
       = (Returned (Classification_name c), Example.w0,
          [BunSpawn (Videos.ffprobe_argv "/tmp/a.mp4")]).
Proof.
  apply (proj1 getVideoAspectRatio_decision_rule
           (Example.env 1280 720 0 None) "/tmp/a.mp4" Example.w0 1280 720 []);
    [lia | lia | reflexivity | reflexivity].
Defined.

(** The tolerance test is a binary64 comparison: at a ratio whose exact
    distance to a target is one tenth the rounded difference decides, so
    53x80 is portrait for the probe although 53/80 - 9/16 = 1/10 exactly. *)
Remark threshold_ratio_53_80 :
  classifies 53 80 portrait /\ classify_exact 53 80 = other
  /\ classify_exact 1920 1080 = landscape /\ classify_exact 1080 1920 = portrait
  /\ classify_exact 1000 1000 = other.
Proof.
  repeat split.
  apply is_portrait; [vm_compute; discriminate | vm_compute; reflexivity].
Qed.

(** ** The video upload pipeline *)

(** The probe leaves the world as it found it. *)
Ltac probe_pure :=
  match goal with
  | E : Videos.getVideoAspectRatio _ _ _ = _ |- _ =>
      let Hw := fresh "Hw" in let Ht := fresh "Ht" in let Hpure := fresh "Hpure" in
      apply getVideoAspectRatio_pure in E as (Hw & Ht & Hpure)
  end.

Lemma tempPath_processed_neq env :
  Videos.tempPath env +:+ ".processed" <> Videos.tempPath env.
Proof. apply append_suffix_neq. discriminate. Qed.

(** Shape of every run of the video handler that returns a response. *)
Lemma handlerUploadVideo_returned env cfg req w resp w' tr :
  Videos.handlerUploadVideo env cfg req w = (Returned resp, w', tr) ->
  exists vid video fd file aspectRatio b,
    params req !! "videoId" = Some vid
    /\ db w !! vid = Some video
    /\ formData req = Returned fd
    /\ fd !! "video" = Some (FormFile file)
    /\ type file = "video/mp4"
    /\ (forall w1, Videos.getVideoAspectRatio env (Videos.tempPath env) w1
                  = (Returned aspectRatio, w1,
                     [BunSpawn (Videos.ffprobe_argv (Videos.tempPath env))]))
    /\ let key := aspectRatio +:+ "/" +:+ Videos.fileKey0 env in
       let video' := set_videoURL ("https://" +:+ s3CfDistribution cfg +:+ "/" +:+ key) video in
       resp = {| status := 200; payload := PVideo video' |}
       /\ tr = [BunWrite (Videos.tempPath env);
                BunSpawn (Videos.ffprobe_argv (Videos.tempPath env));
                BunSpawn (Videos.ffmpeg_argv (Videos.tempPath env)
                            (Videos.tempPath env +:+ ".processed"));
                S3Upload key (Videos.tempPath env +:+ ".processed") "video/mp4";
                UpdateVideo video';
                BunDelete (Videos.tempPath env)]
       /\ db w' = <[videoID video := video']> (db w)
       /\ s3 w' = <[key := ("video/mp4", b)]> (s3 w)
       /\ fs w' !! (Videos.tempPath env +:+ ".processed") = Some b
       /\ fs w' !! Videos.tempPath env = None.
Proof.
  unfold Videos.handlerUploadVideo. fold (Videos.tempPath env). intros H.
  pose proof (tempPath_processed_neq env) as Hneq.
  destruct (params req !! "videoId") as [vid|] eqn:Hvid; [|discriminate H].
  run H; probe_pure; simplify_map_eq;
    match goal with
    | E : (type _ =? _) = true |- _ => apply String.eqb_eq in E; rewrite E in *
    end;
    do 6 eexists; repeat split; eauto.
Qed.

(** ** The thumbnail handler *)

(** Every run of the thumbnail handler: either it is rejected before
    anything is written, or the file goes to its final asset path and then,
    if the write succeeded, the record goes to the store. *)
Lemma handlerUploadThumbnail_run env cfg req w r w' tr :
  Thumbnails.handlerUploadThumbnail env cfg req w = (r, w', tr) ->
  (tr = [] /\ w' = w /\ exists e, r = Threw e)
  \/ exists vid video fd file,
      params req !! "videoId" = Some vid
      /\ db w !! vid = Some video
      /\ formData req = Returned fd
      /\ fd !! "thumbnail" = Some (FormFile file)
      /\ let filename := vid +:+ mediaTypeToExt (type file) in
         let path := Thumbnails.getAssetDiskPath env cfg filename in
         let video' := set_thumbnailURL (getAssetUrl cfg filename) video in
         db w' = (if r is Returned _ then <[videoID video := video']> (db w) else db w)
         /\ s3 w' = s3 w
         /\ ((exists e partial,
                 Bun_write_outcome env path = WriteFailed e partial
                 /\ r = Threw e /\ tr = [BunWrite path]
                 /\ fs w' = (if partial is Some b then <[path := b]> (fs w) else fs w))
             \/ (Bun_write_outcome env path = Written
                 /\ tr = [BunWrite path; UpdateVideo video']
                 /\ fs w' = <[path := bytes file]> (fs w)
                 /\ match updateVideo_outcome env video' with
                    | Some e => r = Threw e
                    | None => r = Returned {| status := 200; payload := PVideo video' |}
                    end)).
Proof.
  unfold Thumbnails.handlerUploadThumbnail. intros H.
  destruct (params req !! "videoId") as [vid|] eqn:Hvid;
    [|injection H as <- <- <-; left; eauto].
  run H; simplify_eq/=; try (left; by eauto).
  all: right; do 4 eexists; repeat split; eauto.
  all: first
    [ left; do 2 eexists; repeat split; eauto; fail
    | right; repeat split; eauto;
      match goal with
      | E : updateVideo_outcome _ _ = _ |- _ => by rewrite E
      end ].
Qed.

(** ** Traces *)

(** Membership of an event in an explicit trace, case by case. *)
Ltac invert_elem H :=
  repeat match type of H with
         | _ ∈ _ :: _ => apply elem_of_cons in H as [H|H]; [try discriminate H|]
         | _ ∈ [] => by apply elem_of_nil in H
         end.

(** C4: in a run that reaches the remux step and whose remux process exits
    with a non-zero status, the remux error is what the caller gets, no
    upload to the object store is attempted, [updateVideo] is not called,
    both stores are as before, and the raw staged file is gone. *)
Theorem remux_failure_is_surfaced env cfg req w r w' tr :
  let argv := Videos.ffmpeg_argv (Videos.tempPath env)
                (Videos.tempPath env +:+ ".processed") in
  Videos.handlerUploadVideo env cfg req w = (r, w', tr) ->
  BunSpawn argv ∈ tr ->
  exited (Bun_spawn env argv) <> 0 ->
  r = Threw (Error ("ffmpeg failed with exit code "
                    +:+ pretty (exited (Bun_spawn env argv)) +:+ ": "
                    +:+ stderr (Bun_spawn env argv)))
  /\ (forall key path contentType, S3Upload key path contentType ∉ tr)
  /\ (forall v, UpdateVideo v ∉ tr)
  /\ db w' = db w /\ s3 w' = s3 w
  /\ fs w' !! Videos.tempPath env = None.
Proof.
  intros argv H Hin Hexit. subst argv.
  unfold Videos.handlerUploadVideo in H. fold (Videos.tempPath env) in H.
  pose proof (tempPath_processed_neq env) as Hneq.
  run H; try probe_pure; simplify_map_eq; try (invert_elem Hin; fail);
    try match goal with
        | E : (exited _ =? 0)%Z = true |- _ => apply Z.eqb_eq in E; contradiction
        end.
  all: repeat split; try done; intros; intros Hx; invert_elem Hx.
Qed.

Lemma remux_failure_is_surfaced_witness :
  let env := Example.env 1920 1080 1 None in
  let run := Videos.handlerUploadVideo env Example.cfg
               (Example.req "video" Example.mp4) Example.w0 in
  run.1.1 = Threw (Error "ffmpeg failed with exit code 1: moov")
  /\ (forall key path contentType, S3Upload key path contentType ∉ run.2)
  /\ (forall v, UpdateVideo v ∉ run.2)
  /\ db run.1.2 = db Example.w0 /\ s3 run.1.2 = s3 Example.w0
  /\ fs run.1.2 !! Videos.tempPath env = None.
Proof.
  intros env run.
  apply (remux_failure_is_surfaced env Example.cfg
           (Example.req "video" Example.mp4) Example.w0 run.1.1 run.1.2 run.2).
  - vm_compute. reflexivity.
  - apply list_elem_of_In. vm_compute. tauto.
  - vm_compute. discriminate.
Defined.



(** When the earlier gates pass, the rejection is the handler's own
    BadRequest about the content type. *)
Lemma wrong_content_type_message env cfg req w vid token video fd file :
  params req !! "videoId" = Some vid -> vid <> "" ->
  validateUUID env vid = true ->
  getBearerToken env (headers req) = Returned token ->
  validateJWT env token (jwtSecret cfg) = Returned (userID video) ->
  db w !! vid = Some video ->
  formData req = Returned fd ->
  fd !! "video" = Some (FormFile file) ->
  (size file <= Videos.MAX_UPLOAD_SIZE)%Z ->
  type file <> "video/mp4" ->
  Videos.handlerUploadVideo env cfg req w
  = (Threw (BadRequestError ("Invalid Content-Type for video: " +:+ type file
                             +:+ ". Only video/mp4 is supported.")), w, []).
Proof.
  intros Hvid Hne Huuid Htok Hjwt Hdb Hfd Hfile Hsize Htype.
  unfold Videos.handlerUploadVideo.
  rewrite Hvid. simpl.
  apply String.eqb_neq in Hne. rewrite Hne. simpl. rewrite Huuid. simpl.
  cbv beta iota zeta delta [bind lift ret throw getVideo get_world].
  rewrite Htok, Hjwt, Hdb. simpl. rewrite String.eqb_refl. simpl.
  rewrite Hfd, Hfile.
  destruct (Z.gtb_spec (size file) Videos.MAX_UPLOAD_SIZE) as [|_]; [lia|].
  apply String.eqb_neq in Htype. rewrite Htype. reflexivity.
Qed.

(** ** What reaches the record store *)

Lemma handlerUploadVideo_update env cfg req w r w' tr v' :
  Videos.handlerUploadVideo env cfg req w = (r, w', tr) ->
  UpdateVideo v' ∈ tr ->
  exists vid video url,
    params req !! "videoId" = Some vid /\ db w !! vid = Some video
    /\ v' = set_videoURL url video.
Proof.
  intros H Hin.
  unfold Videos.handlerUploadVideo in H. fold (Videos.tempPath env) in H.
  destruct (params req !! "videoId") as [vid|] eqn:Hvid;
    [|injection H as <- <- <-; invert_elem Hin].
  run H; try probe_pure; simplify_eq/=; invert_elem Hin;
    injection Hin as ->; do 3 eexists; eauto.
Qed.

Lemma DirectUpload_update env cfg req w r w' tr v' :
  DirectUpload.handlerUploadVideo env cfg req w = (r, w', tr) ->
  UpdateVideo v' ∈ tr ->
  exists vid video url,
    params req !! "videoId" = Some vid /\ db w !! vid = Some video
    /\ v' = set_videoURL url video.
Proof.
  intros H Hin. unfold DirectUpload.handlerUploadVideo in H.
  destruct (params req !! "videoId") as [vid|] eqn:Hvid;
    [|injection H as <- <- <-; invert_elem Hin].
  run H; simplify_eq/=; invert_elem Hin; injection Hin as ->;
    do 3 eexists; eauto.
Qed.

Lemma handlerUploadThumbnail_update env cfg req w r w' tr v' :
  Thumbnails.handlerUploadThumbnail env cfg req w = (r, w', tr) ->
  UpdateVideo v' ∈ tr ->
  exists vid video url,
    params req !! "videoId" = Some vid /\ db w !! vid = Some video
    /\ v' = set_thumbnailURL url video.
Proof.
  intros H Hin.
  apply handlerUploadThumbnail_run in H
    as [(-> & _ & _)|(vid & video & fd & file & Hvid & Hdb & _ & _ & H)];
    [invert_elem Hin|].
  cbv zeta in H.
  destruct H as (_ & _ & [(e & partial & _ & _ & -> & _)|(_ & -> & _)]);
    invert_elem Hin; injection Hin as ->; do 3 eexists; eauto.
Qed.

(** C9: the record a run hands to the store is the record it read with one
    field assigned: [videoURL] in a video upload, [thumbnailURL] in a
    thumbnail upload; the identifiers, the other URL and all remaining
    fields are those of the record read. *)
Theorem upload_assigns_exactly_one_field :
  (forall env cfg req w r w' tr v',
      Videos.handlerUploadVideo env cfg req w = (r, w', tr) ->
      UpdateVideo v' ∈ tr ->
      exists vid video url,
        params req !! "videoId" = Some vid /\ db w !! vid = Some video
        /\ videoURL v' = Some url
        /\ videoID v' = videoID video /\ userID v' = userID video
        /\ thumbnailURL v' = thumbnailURL video
        /\ otherFields v' = otherFields video)
  /\ (forall env cfg req w r w' tr v',
      Thumbnails.handlerUploadThumbnail env cfg req w = (r, w', tr) ->
      UpdateVideo v' ∈ tr ->
      exists vid video url,
        params req !! "videoId" = Some vid /\ db w !! vid = Some video
        /\ thumbnailURL v' = Some url
        /\ videoID v' = videoID video /\ userID v' = userID video
        /\ videoURL v' = videoURL video
        /\ otherFields v' = otherFields video)
  /\ (forall env cfg req w r w' tr v',
      DirectUpload.handlerUploadVideo env cfg req w = (r, w', tr) ->
      UpdateVideo v' ∈ tr ->
      exists vid video url,
        params req !! "videoId" = Some vid /\ db w !! vid = Some video
        /\ videoURL v' = Some url
        /\ videoID v' = videoID video /\ userID v' = userID video
        /\ thumbnailURL v' = thumbnailURL video
        /\ otherFields v' = otherFields video).
Proof.
  repeat split; intros env cfg req w r w' tr v' H Hin.
  - destruct (handlerUploadVideo_update _ _ _ _ _ _ _ _ H Hin)
      as (vid & video & url & Hvid & Hdb & ->).
    exists vid, video, url. by repeat split.
  - destruct (handlerUploadThumbnail_update _ _ _ _ _ _ _ _ H Hin)
      as (vid & video & url & Hvid & Hdb & ->).
    exists vid, video, url. by repeat split.
  - destruct (DirectUpload_update _ _ _ _ _ _ _ _ H Hin)
      as (vid & video & url & Hvid & Hdb & ->).
    exists vid, video, url. by repeat split.
Qed.

Lemma upload_assigns_exactly_one_field_witness :
  let env := Example.env 1920 1080 0 None in
  let run := Videos.handlerUploadVideo env Example.cfg
               (Example.req "video" Example.mp4) Example.w0 in
  let v' := set_videoURL
              ("https://d111.cloudfront.net/landscape/"
               +:+ toString_hex (replicate 32 Byte.xab) +:+ ".mp4")
              Example.alice_video in
  exists vid video url,
    params (Example.req "video" Example.mp4) !! "videoId" = Some vid
    /\ db Example.w0 !! vid = Some video
    /\ videoURL v' = Some url
    /\ videoID v' = videoID video /\ userID v' = userID video
    /\ thumbnailURL v' = thumbnailURL video
    /\ otherFields v' = otherFields video.
Proof.
  intros env run v'.
  apply (proj1 upload_assigns_exactly_one_field env Example.cfg
           (Example.req "video" Example.mp4) Example.w0 run.1.1 run.1.2 run.2 v').
  - vm_compute. reflexivity.
  - apply list_elem_of_In. vm_compute. tauto.
Defined.

(** ** The committed URL *)



Lemma append_length (s t : string) :
  String.length (s +:+ t) = (String.length s + String.length t)%nat.
Proof. induction s as [|c s IH]; simpl; [reflexivity | by rewrite IH]. Qed.

Lemma append_cancel_r (s1 s2 t : string) : s1 +:+ t = s2 +:+ t -> s1 = s2.
Proof.
  revert s2. induction s1 as [|c s1 IH]; intros [|c' s2] H; simpl in H.
  - reflexivity.
  - apply (f_equal String.length) in H. simpl in H. rewrite !append_length in H.
    simpl in H. lia.
  - apply (f_equal String.length) in H. simpl in H. rewrite !append_length in H.
    simpl in H. lia.
  - injection H as -> H. f_equal. by apply IH.
Qed.

(** Two draws give the same key only if they are the same draw. *)
Lemma fileKey0_inj env1 env2 :
  Videos.fileKey0 env1 = Videos.fileKey0 env2 ->
  randomBytes env1 32 = randomBytes env2 32.
Proof.
  unfold Videos.fileKey0. intros H.
  by apply toString_hex_inj, (append_cancel_r _ _ ".mp4").
Qed.

(** ** Responses *)

Lemma DirectUpload_returned env cfg req w resp w' tr :
  DirectUpload.handlerUploadVideo env cfg req w = (Returned resp, w', tr) ->
  resp = {| status := 200; payload := PNull |}.
Proof.
  unfold DirectUpload.handlerUploadVideo. intros H.
  run H; by injection H as <- _ _.
Qed.

Lemma handlerUploadThumbnail_returned env cfg req w resp w' tr :
  Thumbnails.handlerUploadThumbnail env cfg req w = (Returned resp, w', tr) ->
  exists vid video file,
    params req !! "videoId" = Some vid /\ db w !! vid = Some video
    /\ let video' := set_thumbnailURL
                       (getAssetUrl cfg (vid +:+ mediaTypeToExt (type file))) video in
       resp = {| status := 200; payload := PVideo video' |}
       /\ db w' = <[videoID video := video']> (db w).
Proof.
  intros H.
  apply handlerUploadThumbnail_run in H
    as [(_ & _ & e & ?)|(vid & video & fd & file & Hvid & Hdb & _ & _ & H)];
    [discriminate|].
  cbv zeta in H.
  destruct H as (Hdb' & _ & [(e & partial & _ & ? & _)|(_ & _ & _ & H)]);
    [discriminate|].
  destruct (updateVideo_outcome env _); [discriminate|].
  injection H as ->. exists vid, video, file. by repeat split.
Qed.

(** C3, as the code has it: a successful upload through the fast-start
    video handler answers with the updated video record, exactly as a
    successful thumbnail upload does; only the earlier direct-upload revision
    of the video handler answers with a null payload. *)
Theorem successful_upload_response :
  (forall env cfg req w resp w' tr,
      Videos.handlerUploadVideo env cfg req w = (Returned resp, w', tr) ->
      exists video',
        resp = {| status := 200; payload := PVideo video' |}
        /\ db w' !! videoID video' = Some video'
        /\ is_Some (videoURL video'))
  /\ (forall env cfg req w resp w' tr,
      Thumbnails.handlerUploadThumbnail env cfg req w = (Returned resp, w', tr) ->
      exists video',
        resp = {| status := 200; payload := PVideo video' |}
        /\ db w' !! videoID video' = Some video'
        /\ is_Some (thumbnailURL video'))
  /\ (forall env cfg req w resp w' tr,
      DirectUpload.handlerUploadVideo env cfg req w = (Returned resp, w', tr) ->
      resp = {| status := 200; payload := PNull |}).
Proof.
  repeat split.
  - intros env cfg req w resp w' tr H.
    apply handlerUploadVideo_returned in H
      as (vid & video & fd & file & aspectRatio & b & _ & _ & _ & _ & _ & _ & H).
    cbv zeta in H. destruct H as (-> & _ & Hdb & _).
    eexists. split; [reflexivity|]. split; [|by eexists].
    rewrite Hdb. apply lookup_insert_eq.
  - intros env cfg req w resp w' tr H.
    apply handlerUploadThumbnail_returned in H
      as (vid & video & file & _ & _ & H).
    cbv zeta in H. destruct H as (-> & Hdb).
    eexists. split; [reflexivity|]. split; [|by eexists].
    rewrite Hdb. apply lookup_insert_eq.
  - intros env cfg req w resp w' tr H. by apply DirectUpload_returned in H.
Qed.

Lemma successful_upload_response_witness :
  let env := Example.env 1920 1080 0 None in
  let run := Thumbnails.handlerUploadThumbnail env Example.cfg
               (Example.req "thumbnail" Example.png) Example.w0 in
  exists video',
    respondWithJSON 200 (PVideo (set_thumbnailURL
      "http://localhost:8091/assets/7f2b0f5e-6c1d-4a57-9d8e-2b1c3a4d5e6f.png"
      Example.alice_video))
    = {| status := 200; payload := PVideo video' |}
    /\ db run.1.2 !! videoID video' = Some video'
    /\ is_Some (thumbnailURL video').
Proof.
  intros env run.
  apply (proj1 (proj2 successful_upload_response) env Example.cfg
           (Example.req "thumbnail" Example.png) Example.w0 _ run.1.2 run.2).
  vm_compute. reflexivity.
Defined.

(** C3, as stated, fails: the response of a successful video upload carries
    the video record, not an empty body. *)
Lemma video_upload_response_carries_record :
  let env := Example.env 1920 1080 0 None in
  let run := Videos.handlerUploadVideo env Example.cfg
               (Example.req "video" Example.mp4) Example.w0 in
  run.1.1 = Returned
              {| status := 200;
                 payload := PVideo (set_videoURL
                   ("https://d111.cloudfront.net/landscape/"
                    +:+ toString_hex (replicate 32 Byte.xab) +:+ ".mp4")
                   Example.alice_video) |}
  /\ (forall resp, run.1.1 = Returned resp -> payload resp <> PNull).
Proof.
  intros env run.
  assert (Hrun : run.1.1 = Returned
              {| status := 200;
                 payload := PVideo (set_videoURL
                   ("https://d111.cloudfront.net/landscape/"
                    +:+ toString_hex (replicate 32 Byte.xab) +:+ ".mp4")
                   Example.alice_video) |}) by (vm_compute; reflexivity).
  split; [exact Hrun|].
  intros resp Hresp. rewrite Hrun in Hresp. by injection Hresp as <-.
Qed.

(** ** The thumbnail file stays *)



(** ** Where the code departs from the specification *)

(** Every run of the video handler that returns a response leaves the
    remuxed file in scratch storage: the cleanup block deletes the raw
    staged file only. *)
Lemma successful_run_leaves_processed_file env cfg req w resp w' tr :
  Videos.handlerUploadVideo env cfg req w = (Returned resp, w', tr) ->
  is_Some (fs w' !! (Videos.tempPath env +:+ ".processed"))
  /\ fs w' !! Videos.tempPath env = None
  /\ (forall p, BunDelete p ∈ tr -> p = Videos.tempPath env).
Proof.
  intros H.
  apply handlerUploadVideo_returned in H
    as (vid & video & fd & file & aspectRatio & b & _ & _ & _ & _ & _ & _ & H).
  cbv zeta in H. destruct H as (_ & -> & _ & _ & Hp & Hraw).
  split; [by eexists|]. split; [exact Hraw|].
  intros p Hin. invert_elem Hin. by injection Hin as ->.
Qed.

(** C1 at a successful upload (owner, valid mp4, 1920x1080, every
    collaborator succeeding): the call returns 200, the raw staged file is
    gone, and the remuxed sibling is still in scratch storage. *)
Theorem processed_file_is_left_in_scratch :
  let env := Example.env 1920 1080 0 None in
  let run := Videos.handlerUploadVideo env Example.cfg
               (Example.req "video" Example.mp4) Example.w0 in
  run.1.1 = Returned
              {| status := 200;
                 payload := PVideo (set_videoURL
                   ("https://d111.cloudfront.net/landscape/"
                    +:+ toString_hex (replicate 32 Byte.xab) +:+ ".mp4")
                   Example.alice_video) |}
  /\ fs Example.w0 = ∅
  /\ fs run.1.2 !! Videos.tempPath env = None
  /\ fs run.1.2 !! (Videos.tempPath env +:+ ".processed") = Some [Byte.x02]
  /\ BunDelete (Videos.tempPath env +:+ ".processed") ∉ run.2.
Proof.
  intros env run. repeat split; try (vm_compute; reflexivity).
  intros Hin. apply list_elem_of_In in Hin. vm_compute in Hin.
  repeat destruct Hin as [Hin|Hin]; try discriminate Hin. exact Hin.
Qed.

(** The remuxed file also stays when the remux process fails after writing
    a partial output. *)
Lemma partial_output_is_left_in_scratch :
  let env := Example.env 1920 1080 1 None in
  let run := Videos.handlerUploadVideo env Example.cfg
               (Example.req "video" Example.mp4) Example.w0 in
  run.1.1 = Threw (Error "ffmpeg failed with exit code 1: moov")
  /\ fs run.1.2 !! (Videos.tempPath env +:+ ".processed") = Some [Byte.x02].
Proof. split; vm_compute; reflexivity. Qed.

(** An unknown video id, once the request is authenticated: the thumbnail
    handler answers NotFound ... *)
Lemma thumbnail_unknown_id_is_NotFound env cfg req w vid token uid :
  params req !! "videoId" = Some vid -> vid <> "" ->
  getBearerToken env (headers req) = Returned token ->
  validateJWT env token (jwtSecret cfg) = Returned uid ->
  db w !! vid = None ->
  Thumbnails.handlerUploadThumbnail env cfg req w
  = (Threw (NotFoundError "Couldn't find video"), w, []).
Proof.
  intros Hvid Hne Htok Hjwt Hdb. unfold Thumbnails.handlerUploadThumbnail.
  rewrite Hvid. simpl. apply String.eqb_neq in Hne. rewrite Hne. simpl.
  cbv beta iota zeta delta [bind lift ret throw getVideo get_world].
  by rewrite Htok, Hjwt, Hdb.
Qed.

(** ... and the video handler answers with a BadRequest. *)
Lemma video_unknown_id_is_BadRequest env cfg req w vid token uid :
  params req !! "videoId" = Some vid -> vid <> "" ->
  validateUUID env vid = true ->
  getBearerToken env (headers req) = Returned token ->
  validateJWT env token (jwtSecret cfg) = Returned uid ->
  db w !! vid = None ->
  Videos.handlerUploadVideo env cfg req w
  = (Threw (BadRequestError "Video not found"), w, []).
Proof.
  intros Hvid Hne Huuid Htok Hjwt Hdb. unfold Videos.handlerUploadVideo.
  rewrite Hvid. simpl. apply String.eqb_neq in Hne. rewrite Hne. simpl.
  rewrite Huuid. simpl.
  cbv beta iota zeta delta [bind lift ret throw getVideo get_world].
  by rewrite Htok, Hjwt, Hdb.
Qed.

(** C2 at an authenticated request for a well-formed id that the record
    store does not know: the thumbnail handler rejects with NotFound, the
    video handler with BadRequest. *)
Theorem unknown_video_id_error_kinds :
  let env := Example.env 1920 1080 0 None in
  let video_run := Videos.handlerUploadVideo env Example.cfg
                     (Example.req "video" Example.mp4) Example.w_empty in
  let thumbnail_run := Thumbnails.handlerUploadThumbnail env Example.cfg
                         (Example.req "thumbnail" Example.png) Example.w_empty in
  db Example.w_empty !! Example.vid = None
  /\ (exists e, thumbnail_run.1.1 = Threw e /\ kind_of e = NotFound)
  /\ (exists e, video_run.1.1 = Threw e /\ kind_of e = BadRequest
               /\ kind_of e <> NotFound)
  /\ video_run.1.1 = Threw (BadRequestError "Video not found").
Proof.
  intros env video_run thumbnail_run. repeat split.
  - by exists (NotFoundError "Couldn't find video").
  - by exists (BadRequestError "Video not found").
Qed.

(** * Further properties of the code *)

(** ** More on splitting and extensions *)

Lemma occurrences_append sep (s t : string) :
  occurrences sep (s +:+ t) = (occurrences sep s + occurrences sep t)%nat.
Proof.
  induction s as [|c s IH]; simpl; [reflexivity|].
  destruct (Ascii.eqb c sep); simpl; by rewrite IH.
Qed.

Lemma split_pieces_free sep s :
  Forall (fun p => occurrences sep p = O) (split sep s).
Proof.
  induction s as [|c s IH]; simpl.
  - by repeat constructor.
  - destruct (Ascii.eqb c sep) eqn:Hc; [by constructor|].
    destruct (split sep s) as [|p ps]; [by repeat constructor; simpl; rewrite Hc|].
    inversion IH; subst. constructor; [simpl; by rewrite Hc | assumption].
Qed.

Lemma split_nonempty sep s : split sep s <> [].
Proof.
  intros H. apply (f_equal List.length) in H. rewrite split_length in H. discriminate.
Qed.

Lemma join_split sep s : join sep (split sep s) = s.
Proof.
  induction s as [|c s IH]; simpl; [reflexivity|].
  destruct (Ascii.eqb_spec c sep) as [->|Hc].
  - pose proof (split_nonempty sep s) as Hne.
    destruct (split sep s) as [|p ps]; [done|]. simpl in *. by rewrite IH.
  - pose proof (split_nonempty sep s) as Hne.
    destruct (split sep s) as [|p ps]; [done|].
    destruct ps as [|q ps]; simpl in *; by rewrite <- IH.
Qed.

Lemma mediaTypeToExt_cases (mediaType : string) :
  mediaTypeToExt mediaType = ".bin"
  \/ exists t sub,
       mediaType = t +:+ "/" +:+ sub /\ occurrences slash t = O
       /\ occurrences slash sub = O /\ mediaTypeToExt mediaType = "." +:+ sub.
Proof.
  unfold mediaTypeToExt.
  pose proof (join_split slash mediaType) as Hjoin.
  pose proof (split_pieces_free slash mediaType) as Hfree.
  destruct (split slash mediaType) as [|t [|sub [|x xs]]]; simpl; try by left.
  right. exists t, sub. inversion Hfree as [|? ? Ht Hrest]; subst.
  inversion Hrest as [|? ? Hsub _]; subst. by repeat split.
Qed.

Lemma mediaTypeToExt_free (mediaType : string) :
  occurrences slash (mediaTypeToExt mediaType) = O.
Proof.
  destruct (mediaTypeToExt_cases mediaType) as [->|(t & sub & _ & _ & Hsub & ->)];
    [reflexivity | exact Hsub].
Qed.

(** X1: whatever the content type, the extension is a dot followed by a
    slash-free suffix: either [bin], or the part of the content type after
    its only slash; the content type itself is then the slash-free type,
    a slash, and that suffix. *)
Theorem mediaTypeToExt_is_extension (mediaType : string) :
  exists sub,
    mediaTypeToExt mediaType = "." +:+ sub
    /\ occurrences slash sub = O
    /\ (sub = "bin"
        \/ exists t, mediaType = t +:+ "/" +:+ sub /\ occurrences slash t = O).
Proof.
  destruct (mediaTypeToExt_cases mediaType) as [->|(t & sub & Hs & Ht & Hsub & ->)].
  - exists "bin". split; [reflexivity|]. split; [reflexivity|]. by left.
  - exists sub. split; [reflexivity|]. split; [assumption|]. right. by exists t.
Qed.

(** ** Hexadecimal names *)

Lemma hex_digit_is_hex (n : N) : is_hex_digit (hex_digit n) = true.
Proof.
  destruct n as [|p]; [reflexivity|].
  destruct p as [[[[p|p|]|[p|p|]|]|[[p|p|]|[p|p|]|]|]|[[[p|p|]|[p|p|]|]|[[p|p|]|[p|p|]|]|]|];
    reflexivity.
Qed.

Lemma is_hex_digit_not_slash c : is_hex_digit c = true -> Ascii.eqb c slash = false.
Proof.
  intros H. destruct (Ascii.eqb_spec c slash) as [->|]; [discriminate H | reflexivity].
Qed.

Lemma all_chars_free P sep s :
  (forall c, P c = true -> Ascii.eqb c sep = false) ->
  all_chars P s = true -> occurrences sep s = O.
Proof.
  intros HP. induction s as [|c s IH]; simpl; [reflexivity|].
  intros [Hc Hs]%andb_true_iff. rewrite (HP c Hc). by apply IH.
Qed.

Lemma toString_hex_digits (buf : list byte) :
  all_chars is_hex_digit (toString_hex buf) = true.
Proof.
  induction buf as [|b buf IH]; simpl; [reflexivity|].
  by rewrite !hex_digit_is_hex, IH.
Qed.

(** X2: the hexadecimal print of a buffer has two characters per byte,
    all of them digits [0-9a-f] (so none is a slash), and reading it back
    gives the buffer. *)
Theorem toString_hex_round_trip (buf : list byte) :
  fromString_hex (List.length buf) (toString_hex buf) = buf
  /\ String.length (toString_hex buf) = (2 * List.length buf)%nat
  /\ all_chars is_hex_digit (toString_hex buf) = true
  /\ occurrences slash (toString_hex buf) = O.
Proof.
  split; [by apply fromString_toString_hex|].
  split; [apply toString_hex_length|].
  split; [apply toString_hex_digits|].
  apply (all_chars_free is_hex_digit); [apply is_hex_digit_not_slash|].
  apply toString_hex_digits.
Qed.

(** ** base64url names *)

Lemma list_ind3 {A} (P : list A -> Prop) :
  P [] -> (forall a, P [a]) -> (forall a b, P [a; b]) ->
  (forall a b c l, P l -> P (a :: b :: c :: l)) ->
  forall l, P l.
Proof.
  intros H0 H1 H2 H3 l.
  assert (H : P l /\ (forall a, P (a :: l)) /\ (forall a b, P (a :: b :: l))).
  { induction l as [|x l (IH0 & IH1 & IH2)]; [by repeat split|].
    repeat split; [apply IH1 | intros; apply IH2 | intros; by apply H3]. }
  apply H.
Qed.

Lemma unbase64url_base64url_digit (k : N) :
  (k < 64)%N -> unbase64url_digit (base64url_digit k) = k.
Proof.
  intros Hk. destruct k as [|p]; [reflexivity|].
  do 6 (try destruct p as [p|p|]); try reflexivity; lia.
Qed.

Lemma base64url_digit_not_slash (k : N) :
  Ascii.eqb (base64url_digit k) slash = false.
Proof.
  unfold base64url_digit. generalize (N.to_nat k). intros n.
  do 64 (destruct n as [|n]; [reflexivity|]). reflexivity.
Qed.

Lemma byte_of_to_N (b : byte) : byte_of_N (Byte.to_N b) = b.
Proof. unfold byte_of_N. by rewrite Byte.of_to_N. Qed.

Lemma to_N_lt_256 (b : byte) : (Byte.to_N b < 256)%N.
Proof. pose proof (Byte.to_N_bounded b). lia. Qed.

Ltac div_lia := zify; Z.to_euclidean_division_equations; lia.

Lemma base64url_group3 (a b c : N) :
  (a < 256)%N -> (b < 256)%N -> (c < 256)%N ->
  let n := (a * 65536 + b * 256 + c)%N in
  let m := (((n / 262144 * 64 + n / 4096 mod 64) * 64 + n / 64 mod 64) * 64
            + n mod 64)%N in
  (n / 262144 < 64)%N /\ (m / 65536 = a)%N /\ (m / 256 mod 256 = b)%N
  /\ (m mod 256 = c)%N.
Proof. intros Ha Hb Hc n m. subst n m. repeat split; div_lia. Qed.

Lemma base64url_group2 (a b : N) :
  (a < 256)%N -> (b < 256)%N ->
  let n := (a * 256 + b)%N in
  let m := ((n / 1024 * 64 + n / 16 mod 64) * 64 + n mod 16 * 4)%N in
  (n / 1024 < 64)%N /\ (n mod 16 * 4 < 64)%N /\ (m / 1024 = a)%N
  /\ (m / 4 mod 256 = b)%N.
Proof. intros Ha Hb n m. subst n m. repeat split; div_lia. Qed.

Lemma base64url_group1 (a : N) :
  (a < 256)%N ->
  let m := (a / 4 * 64 + a mod 4 * 16)%N in
  (a / 4 < 64)%N /\ (a mod 4 * 16 < 64)%N /\ (m / 16 = a)%N.
Proof. intros Ha m. subst m. repeat split; div_lia. Qed.

Lemma mod_64_lt (n : N) : (n mod 64 < 64)%N.
Proof. div_lia. Qed.

Lemma fromString_toString_base64url (buf : list byte) :
  fromString_base64url (toString_base64url buf) = buf.
Proof.
  induction buf as [|a|a b|a b c rest IH] using list_ind3.
  - reflexivity.
  - pose proof (base64url_group1 _ (to_N_lt_256 a)) as (H0 & H1 & H2).
    cbn [toString_base64url fromString_base64url].
    rewrite !unbase64url_base64url_digit by assumption.
    by rewrite H2, byte_of_to_N.
  - pose proof (base64url_group2 _ _ (to_N_lt_256 a) (to_N_lt_256 b))
      as (H0 & H1 & H2 & H3).
    cbn [toString_base64url fromString_base64url].
    rewrite !unbase64url_base64url_digit by (assumption || apply mod_64_lt).
    by rewrite H2, H3, !byte_of_to_N.
  - pose proof (base64url_group3 _ _ _ (to_N_lt_256 a) (to_N_lt_256 b) (to_N_lt_256 c))
      as (H0 & H1 & H2 & H3).
    cbn [toString_base64url fromString_base64url].
    rewrite !unbase64url_base64url_digit by (assumption || apply mod_64_lt).
    by rewrite H1, H2, H3, !byte_of_to_N, IH.
Qed.

Lemma toString_base64url_free (buf : list byte) :
  occurrences slash (toString_base64url buf) = O.
Proof.
  induction buf as [|a|a b|a b c rest IH] using list_ind3;
    cbn [toString_base64url occurrences];
    rewrite ?base64url_digit_not_slash; done.
Qed.

Lemma toString_base64url_length (buf : list byte) :
  String.length (toString_base64url buf) = ((4 * List.length buf + 2) / 3)%nat.
Proof.
  induction buf as [|a|a b|a b c rest IH] using list_ind3;
    cbn [toString_base64url String.length List.length]; try reflexivity.
  rewrite IH.
  replace (4 * S (S (S (List.length rest))) + 2)%nat
    with (4 * List.length rest + 2 + 4 * 3)%nat by lia.
  rewrite Nat.div_add by lia. lia.
Qed.

(** X3: the base64url print is lossless and URL-safe: reading it back
    gives the buffer, it has ceil(4n/3) characters for n bytes, and none of
    them is a slash. *)
Theorem toString_base64url_round_trip (buf : list byte) :
  fromString_base64url (toString_base64url buf) = buf
  /\ String.length (toString_base64url buf) = ((4 * List.length buf + 2) / 3)%nat
  /\ occurrences slash (toString_base64url buf) = O.
Proof.
  split; [apply fromString_toString_base64url|].
  split; [apply toString_base64url_length | apply toString_base64url_free].
Qed.

(** X4: a random asset path is a single path segment (it contains no
    slash); with a 32-byte draw its name part has 43 characters; and for a
    given content type two paths coincide only if the draws do. *)
Theorem getAssetPath_single_segment :
  (forall env mediaType, occurrences slash (getAssetPath env mediaType) = O)
  /\ (forall env mediaType,
        List.length (randomBytes env 32) = 32%nat ->
        String.length (getAssetPath env mediaType)
        = (43 + String.length (mediaTypeToExt mediaType))%nat)
  /\ (forall env1 env2 mediaType,
        getAssetPath env1 mediaType = getAssetPath env2 mediaType ->
        randomBytes env1 32 = randomBytes env2 32).
Proof.
  split; [|split].
  - intros env mediaType. unfold getAssetPath. cbv zeta.
    by rewrite occurrences_append, toString_base64url_free, mediaTypeToExt_free.
  - intros env mediaType Hlen. unfold getAssetPath. cbv zeta.
    by rewrite append_length, toString_base64url_length, Hlen.
  - intros env1 env2 mediaType H. unfold getAssetPath in H. cbv zeta in H.
    apply append_cancel_r in H.
    rewrite <- (fromString_toString_base64url (randomBytes env1 32)).
    rewrite <- (fromString_toString_base64url (randomBytes env2 32)).
    by rewrite H.
Qed.

Lemma getAssetPath_single_segment_witness :
  String.length (getAssetPath Scenario.base "image/png")
  = (43 + String.length (mediaTypeToExt "image/png"))%nat
  /\ randomBytes Scenario.base 32 = randomBytes Scenario.base 32.
Proof.
  split.
  - apply (proj1 (proj2 getAssetPath_single_segment) Scenario.base "image/png").
    reflexivity.
  - apply (proj2 (proj2 getAssetPath_single_segment) Scenario.base Scenario.base
             "image/png"). reflexivity.
Defined.

(** ** More on the probe *)

Lemma Classification_name_cases c :
  Classification_name c ∈ ["landscape"; "portrait"; "other"].
Proof. destruct c; set_solver. Qed.

(** X5: the probe returns exactly when ffprobe exits with status 0 and
    the first stream it reports has a non-zero width and a non-zero height;
    what it returns is one of the three class names; in every case it makes
    one call, the ffprobe spawn, and leaves the world as it was. *)
Theorem getVideoAspectRatio_returns_iff env path w :
  let p := Bun_spawn env (Videos.ffprobe_argv path) in
  let run := Videos.getVideoAspectRatio env path w in
  ((exists s, run.1.1 = Returned s)
   <-> exited p = 0
       /\ exists wd ht more,
           JSON_parse env (stdout p)
           = Returned {| streams := Some ({| width := Some wd; height := Some ht |} :: more) |}
           /\ wd <> 0 /\ ht <> 0)
  /\ (forall s, run.1.1 = Returned s -> s ∈ ["landscape"; "portrait"; "other"])
  /\ run.1.2 = w
  /\ run.2 = [BunSpawn (Videos.ffprobe_argv path)].
Proof.
  intros p run. subst p run.
  destruct (Videos.getVideoAspectRatio env path w) as [[r w'] tr] eqn:Hrun.
  pose proof (getVideoAspectRatio_pure _ _ _ _ _ _ Hrun) as (-> & -> & _).
  simpl. split; [split|split; [|done]].
  - intros [s ->].
    apply getVideoAspectRatio_returned in Hrun
      as (wd & ht & more & c & Hjson & Hexit & Hwd & Hht & _).
    eauto 10.
  - intros (Hexit & wd & ht & more & Hjson & Hwd & Hht).
    destruct (getVideoAspectRatio_classifies env path w wd ht more Hexit Hjson Hwd Hht)
      as (c & _ & Hc).
    rewrite Hc in Hrun. injection Hrun as <-. eauto.
  - intros s ->.
    apply getVideoAspectRatio_returned in Hrun
      as (wd & ht & more & c & _ & _ & _ & _ & _ & ->).
    apply Classification_name_cases.
Qed.

Lemma getVideoAspectRatio_returns_iff_witness :
  let env := Example.env 1280 720 0 None in
  exists s, (Videos.getVideoAspectRatio env "/tmp/a.mp4" Example.w0).1.1 = Returned s.
Proof.
  intros env.
  apply (proj2 (proj1 (getVideoAspectRatio_returns_iff env "/tmp/a.mp4" Example.w0))).
  split; [reflexivity|]. exists 1280, 720, []. by repeat split.
Defined.



(** ** The probe against exact arithmetic *)

Module SizesFacts.
Import Uint63.

Lemma float_of_Z_prim (z : Z) :
  0 <= z < 2 ^ 63 -> Videos.float_of_Z z = of_uint63 (of_Z z).
Proof.
  intros Hz. unfold Videos.float_of_Z.
  assert (Hz' : to_Z (of_Z z) = z).
  { rewrite of_Z_spec. apply Z.mod_small. change wB with (2 ^ 63). lia. }
  rewrite <- Hz' at 1. rewrite <- of_uint63_spec. apply SF2Prim_Prim2SF.
Qed.

Lemma to_Z_of_Z_small (z : Z) : 0 <= z < 2 ^ 63 -> to_Z (of_Z z) = z.
Proof.
  intros Hz. rewrite of_Z_spec. apply Z.mod_small. change wB with (2 ^ 63). lia.
Qed.

Lemma classify_prim_classifies (wd ht : Z) :
  0 <= wd < 2 ^ 63 -> 0 <= ht < 2 ^ 63 ->
  classifies wd ht (Sizes.classify_prim (of_Z wd) (of_Z ht)).
Proof.
  intros Hwd Hht. unfold Sizes.classify_prim. cbv zeta.
  rewrite <- !float_of_Z_prim by assumption.
  destruct (near_dec wd ht (16 / 9)%float) as [Hl|Hl].
  - pose proof Hl as Hl'. unfold near, deviation in Hl'. rewrite Hl'.
    by constructor.
  - pose proof Hl as Hl'. unfold near, deviation in Hl'.
    apply not_true_is_false in Hl'. rewrite Hl'.
    destruct (near_dec wd ht (9 / 16)%float) as [Hp|Hp].
    + pose proof Hp as Hp'. unfold near, deviation in Hp'. rewrite Hp'.
      by constructor.
    + pose proof Hp as Hp'. unfold near, deviation in Hp'.
      apply not_true_is_false in Hp'. rewrite Hp'. by constructor.
Qed.

Lemma to_Z_scaled (c : int) (z : Z) :
  0 <= to_Z c <= 200 -> 0 <= z <= 4096 -> to_Z (c * of_Z z) = to_Z c * z.
Proof.
  intros Hc Hz. rewrite mul_spec, to_Z_of_Z_small by lia.
  apply Z.mod_small. change wB with (2 ^ 63). nia.
Qed.

Lemma leb_to_Z (x y : int) : (x <=? y)%uint63 = (to_Z x <=? to_Z y)%Z.
Proof.
  destruct (Z.leb_spec (to_Z x) (to_Z y)) as [H|H].
  - by apply leb_spec.
  - apply not_true_is_false. rewrite leb_spec. lia.
Qed.

Lemma ltb_to_Z (x y : int) : (x <? y)%uint63 = (to_Z x <? to_Z y)%Z.
Proof.
  destruct (Z.ltb_spec (to_Z x) (to_Z y)) as [H|H].
  - by apply ltb_spec.
  - apply not_true_is_false. rewrite ltb_spec. lia.
Qed.

Lemma interval_prim_spec (wd ht : Z) :
  0 <= wd <= 4096 -> 0 <= ht <= 4096 ->
  Sizes.interval_prim (of_Z wd) (of_Z ht) = classify_interval wd ht.
Proof.
  intros Hwd Hht. unfold Sizes.interval_prim, classify_interval.
  rewrite !leb_to_Z, !ltb_to_Z.
  rewrite !to_Z_scaled by (assumption || (vm_compute; split; discriminate)).
  reflexivity.
Qed.

Lemma Classification_eqb_eq c c' : Sizes.Classification_eqb c c' = true -> c = c'.
Proof. by destruct c, c'. Qed.

Lemma all_heights_sound (n : nat) (w h0 h : int) :
  Sizes.all_heights n w h0 = true ->
  to_Z h0 + Z.of_nat n < wB ->
  to_Z h0 <= to_Z h < to_Z h0 + Z.of_nat n ->
  Sizes.classify_prim w h = Sizes.interval_prim w h.
Proof.
  revert h0. induction n as [|n IH]; intros h0 Hall Hbound Hh; [lia|].
  cbn [Sizes.all_heights] in Hall. apply andb_true_iff in Hall as [Hhere Hrest].
  destruct (Z.eq_dec (to_Z h) (to_Z h0)) as [Heq|Hneq].
  - apply to_Z_inj in Heq. subst h. by apply Classification_eqb_eq.
  - assert (Hnext : to_Z (h0 + 1) = to_Z h0 + 1).
    { rewrite add_spec. change (to_Z 1) with 1. apply Z.mod_small.
      pose proof (to_Z_bounded h0). lia. }
    apply (IH (h0 + 1)%uint63); [assumption | lia | lia].
Qed.

Lemma all_widths_sound (n m : nat) (w0 w h : int) :
  Sizes.all_widths n m w0 = true ->
  to_Z w0 + Z.of_nat n < wB -> 1 + Z.of_nat m < wB ->
  to_Z w0 <= to_Z w < to_Z w0 + Z.of_nat n ->
  1 <= to_Z h < 1 + Z.of_nat m ->
  Sizes.classify_prim w h = Sizes.interval_prim w h.
Proof.
  revert w0. induction n as [|n IH]; intros w0 Hall Hbound Hm Hw Hh; [lia|].
  cbn [Sizes.all_widths] in Hall. apply andb_true_iff in Hall as [Hhere Hrest].
  destruct (Z.eq_dec (to_Z w) (to_Z w0)) as [Heq|Hneq].
  - apply to_Z_inj in Heq. subst w.
    apply (all_heights_sound m w0 1%uint63 h Hhere); assumption.
  - assert (Hnext : to_Z (w0 + 1) = to_Z w0 + 1).
    { rewrite add_spec. change (to_Z 1) with 1. apply Z.mod_small.
      pose proof (to_Z_bounded w0). lia. }
    apply (IH (w0 + 1)%uint63); try assumption; lia.
Qed.

Lemma all_sizes_sound (n : nat) (wd ht : Z) :
  Sizes.all_sizes n = true ->
  Z.of_nat n <= 4096 ->
  1 <= wd <= Z.of_nat n -> 1 <= ht <= Z.of_nat n ->
  classifies wd ht (classify_interval wd ht).
Proof.
  intros Hall Hn Hwd Hht. unfold Sizes.all_sizes in Hall.
  rewrite <- interval_prim_spec by lia.
  assert (HwB : wB = 2 ^ 63) by reflexivity.
  rewrite <- (all_widths_sound n n 1%uint63 (of_Z wd) (of_Z ht) Hall).
  - apply classify_prim_classifies; lia.
  - change (to_Z 1) with 1. lia.
  - lia.
  - rewrite to_Z_of_Z_small by lia. change (to_Z 1) with 1. lia.
  - rewrite to_Z_of_Z_small by lia. lia.
Qed.

Lemma all_sizes_4096 : Sizes.all_sizes 4096 = true.
Proof. vm_compute. reflexivity. Qed.

Lemma of_nat_4096 : Z.of_nat 4096 = 4096.
Proof. vm_compute. reflexivity. Qed.

Lemma classifies_interval_4096 (wd ht : Z) :
  1 <= wd <= 4096 -> 1 <= ht <= 4096 ->
  classifies wd ht (classify_interval wd ht).
Proof.
  intros Hwd Hht. rewrite <- of_nat_4096 in Hwd, Hht.
  refine (all_sizes_sound 4096 wd ht all_sizes_4096 _ Hwd Hht).
  rewrite of_nat_4096. lia.
Qed.

End SizesFacts.

(** X7: for every stream of at most 4096 x 4096 the probe's answer is
    the exact-arithmetic rule with the thresholds settled as binary64
    settles them: landscape when 151/90 <= w/h < 169/90, portrait when
    37/80 <= w/h <= 53/80, other otherwise; away from the four threshold
    ratios this is the exact rule |w/h - 16/9| < 1/10, |w/h - 9/16| < 1/10. *)
Theorem getVideoAspectRatio_exact_up_to_4096 env path w wd ht more :
  1 <= wd <= 4096 -> 1 <= ht <= 4096 ->
  exited (Bun_spawn env (Videos.ffprobe_argv path)) = 0 ->
  JSON_parse env (stdout (Bun_spawn env (Videos.ffprobe_argv path)))
  = Returned {| streams := Some ({| width := Some wd; height := Some ht |} :: more) |} ->
  Videos.getVideoAspectRatio env path w
  = (Returned (Classification_name (classify_interval wd ht)), w,
     [BunSpawn (Videos.ffprobe_argv path)])
  /\ (on_threshold wd ht = false -> classify_interval wd ht = classify_exact wd ht).
Proof.
  intros Hwd Hht Hexit Hjson. split.
  - destruct (getVideoAspectRatio_classifies env path w wd ht more Hexit Hjson)
      as (c & Hc & Hrun); [lia | lia |].
    pose proof (SizesFacts.classifies_interval_4096 wd ht Hwd Hht) as Hc'.
    by rewrite Hrun, (classifies_functional wd ht c _ Hc Hc').
  - unfold on_threshold, classify_interval, classify_exact. intros Hth.
    apply orb_false_iff in Hth as [H1 H2].
    apply Z.eqb_neq in H1. apply Z.eqb_neq in H2.
    repeat match goal with
           | |- context [(?a <=? ?b)%Z] => destruct (Z.leb_spec a b)
           | |- context [(?a <? ?b)%Z] => destruct (Z.ltb_spec a b)
           end; cbn [andb]; try reflexivity; lia.
Qed.

Lemma getVideoAspectRatio_exact_up_to_4096_witness :
  let env := Example.env 3840 2160 0 None in
  Videos.getVideoAspectRatio env "/tmp/a.mp4" Example.w0
  = (Returned (Classification_name (classify_interval 3840 2160)), Example.w0,
     [BunSpawn (Videos.ffprobe_argv "/tmp/a.mp4")])
  /\ (on_threshold 3840 2160 = false
      -> classify_interval 3840 2160 = classify_exact 3840 2160).
Proof.
  intros env.
  apply (getVideoAspectRatio_exact_up_to_4096 env "/tmp/a.mp4" Example.w0 3840 2160 []);
    [lia | lia | reflexivity | reflexivity].
Defined.

(** ** The remux step *)

(** X8: the remux step makes one call, the ffmpeg spawn that copies the
    streams into [filePath + ".processed"]; it returns that path exactly
    when ffmpeg exits with status 0 and otherwise throws the error quoting
    the status and stderr; it never touches its input file, nor any file
    but the output path, nor the stores. *)
Theorem processVideoForFastStart_frame env filePath w r w' tr :
  Videos.processVideoForFastStart env filePath w = (r, w', tr) ->
  let out := filePath +:+ ".processed" in
  let p := Bun_spawn env (Videos.ffmpeg_argv filePath out) in
  tr = [BunSpawn (Videos.ffmpeg_argv filePath out)]
  /\ r = (if (exited p =? 0)%Z then Returned out
          else Threw (Error ("ffmpeg failed with exit code " +:+ pretty (exited p)
                             +:+ ": " +:+ stderr p)))
  /\ fs w' !! filePath = fs w !! filePath
  /\ (forall q, q <> out -> fs w' !! q = fs w !! q)
  /\ fs w' !! out = (if output_file p is Some b then Some b else fs w !! out)
  /\ db w' = db w /\ s3 w' = s3 w.
Proof.
  intros H out p. subst out p.
  pose proof (append_suffix_neq filePath ".processed") as Hneq.
  assert (Hne : filePath +:+ ".processed" <> filePath) by (apply Hneq; discriminate).
  run H; injection H as <- <- <-; simpl; repeat split;
    intros; simplify_map_eq; done.
Qed.

Lemma processVideoForFastStart_frame_witness :
  let env := Scenario.base in
  let w := {| fs := {[ "/tmp/a.mp4" := [Byte.x00] ]}; db := ∅; s3 := ∅ |} in
  let run := Videos.processVideoForFastStart env "/tmp/a.mp4" w in
  let out := "/tmp/a.mp4" +:+ ".processed" in
  let p := Bun_spawn env (Videos.ffmpeg_argv "/tmp/a.mp4" out) in
  run.2 = [BunSpawn (Videos.ffmpeg_argv "/tmp/a.mp4" out)]
  /\ run.1.1 = (if (exited p =? 0)%Z then Returned out
                else Threw (Error ("ffmpeg failed with exit code " +:+ pretty (exited p)
                                   +:+ ": " +:+ stderr p)))
  /\ fs run.1.2 !! "/tmp/a.mp4" = fs w !! "/tmp/a.mp4"
  /\ (forall q, q <> out -> fs run.1.2 !! q = fs w !! q)
  /\ fs run.1.2 !! out = (if output_file p is Some b then Some b else fs w !! out)
  /\ db run.1.2 = db w /\ s3 run.1.2 = s3 w.
Proof.
  intros env w run out p.
  apply (processVideoForFastStart_frame env "/tmp/a.mp4" w run.1.1 run.1.2 run.2).
  vm_compute. reflexivity.
Defined.

(** ** The gates of the video handler *)

Ltac gate_facts :=
  repeat match goal with
         | E : negb (String.eqb _ _) = true |- _ =>
             apply negb_true_iff, String.eqb_neq in E
         | E : String.eqb _ _ = true |- _ => apply String.eqb_eq in E
         | E : (_ >? _)%Z = false |- _ => rewrite Z.gtb_ltb in E; apply Z.ltb_ge in E
         end.

(** X9: the video handler has no effect before every gate has passed.
    Either the run made no call, left the world as it was and threw, or the
    id was a non-empty valid UUID, the token authenticated the owner of an
    existing record, the form carried a file of at most 2^30 bytes and of
    type exactly video/mp4, and the first call was the write to the scratch
    path. *)
Theorem handlerUploadVideo_gates env cfg req w r w' tr :
  Videos.handlerUploadVideo env cfg req w = (r, w', tr) ->
  (tr = [] /\ w' = w /\ exists e, r = Threw e)
  \/ (exists vid token video fd file,
        params req !! "videoId" = Some vid /\ vid <> ""
        /\ validateUUID env vid = true
        /\ getBearerToken env (headers req) = Returned token
        /\ validateJWT env token (jwtSecret cfg) = Returned (userID video)
        /\ db w !! vid = Some video
        /\ formData req = Returned fd
        /\ fd !! "video" = Some (FormFile file)
        /\ size file <= 1073741824
        /\ type file = "video/mp4"
        /\ head tr = Some (BunWrite (Videos.tempPath env))).
Proof.
  intros H.
  unfold Videos.handlerUploadVideo in H. fold (Videos.tempPath env) in H.
  destruct (params req !! "videoId") as [vid|] eqn:Hvid;
    [|injection H as <- <- <-; left; eauto].
  run H; try probe_pure; simplify_eq/=; try (left; by eauto).
  all: right; gate_facts; subst; do 5 eexists; repeat split; eauto.
Qed.

Lemma handlerUploadVideo_gates_witness :
  let env := Scenario.base in
  let req := Example.req "video" Example.mp4 in
  let run := Videos.handlerUploadVideo env Example.cfg req Example.w0 in
  (run.2 = [] /\ run.1.2 = Example.w0 /\ exists e, run.1.1 = Threw e)
  \/ (exists vid token video fd file,
        params req !! "videoId" = Some vid /\ vid <> ""
        /\ validateUUID env vid = true
        /\ getBearerToken env (headers req) = Returned token
        /\ validateJWT env token (jwtSecret Example.cfg) = Returned (userID video)
        /\ db Example.w0 !! vid = Some video
        /\ formData req = Returned fd
        /\ fd !! "video" = Some (FormFile file)
        /\ size file <= 1073741824
        /\ type file = "video/mp4"
        /\ head run.2 = Some (BunWrite (Videos.tempPath env))).
Proof.
  intros env req run.
  apply (handlerUploadVideo_gates env Example.cfg req Example.w0 run.1.1 run.1.2 run.2).
  vm_compute. reflexivity.
Defined.

(** ** Order of the calls *)

Ltac pick_aspect :=
  match goal with
  | H : forall w1, Videos.getVideoAspectRatio _ _ w1 = (Returned ?a, _, _) |- _ =>
      exists a
  | _ => exists ""
  end.

Ltac pick_calls n :=
  exists n; pick_aspect;
  match goal with
  | v : Video |- _ => exists v
  end;
  first [ exists []; split; [lia|]; split; [reflexivity|]; split; [by left|]
        | exists cleanup_log; split; [lia|]; split; [reflexivity|]; split; [by right|] ].

(** X10: the calls of a run of the video handler are a non-empty prefix
    of write, ffprobe, ffmpeg, upload, updateVideo, in this order and each at
    most once, followed by the delete of the scratch file (and its log line
    when the delete found nothing); a run that returns made all five. *)
Theorem handlerUploadVideo_calls_in_order env cfg req w r w' tr :
  Videos.handlerUploadVideo env cfg req w = (r, w', tr) ->
  tr = []
  \/ exists n aspectRatio video log,
      (1 <= n <= 5)%nat
      /\ tr = (take n (pipeline_calls env cfg aspectRatio video)
               ++ BunDelete (Videos.tempPath env) :: log)%list
      /\ (log = [] \/ log = cleanup_log)
      /\ ((exists resp, r = Returned resp) -> n = 5%nat).
Proof.
  intros H.
  unfold Videos.handlerUploadVideo in H. fold (Videos.tempPath env) in H.
  run H; try probe_pure; simplify_eq/=; try (by left).
  all: right; gate_facts; subst;
    try match goal with E : type _ = "video/mp4" |- _ => rewrite E in * end;
    unfold pipeline_calls; cbv zeta.
  all: first [ pick_calls 1%nat | pick_calls 2%nat | pick_calls 3%nat
             | pick_calls 4%nat | pick_calls 5%nat ].
  all: try (intros [? ?]; discriminate); reflexivity.
Qed.

Lemma handlerUploadVideo_calls_in_order_witness :
  let env := Scenario.with_s3 (Some Scenario.s3_down) Scenario.base in
  let run := Videos.handlerUploadVideo env Example.cfg
               (Example.req "video" Example.mp4) Example.w0 in
  run.2 = []
  \/ exists n aspectRatio video log,
      (1 <= n <= 5)%nat
      /\ run.2 = (take n (pipeline_calls env Example.cfg aspectRatio video)
                  ++ BunDelete (Videos.tempPath env) :: log)%list
      /\ (log = [] \/ log = cleanup_log)
      /\ ((exists resp, run.1.1 = Returned resp) -> n = 5%nat).
Proof.
  intros env run.
  apply (handlerUploadVideo_calls_in_order env Example.cfg
           (Example.req "video" Example.mp4) Example.w0 run.1.1 run.1.2 run.2).
  vm_compute. reflexivity.
Defined.

(** Point at an event of an explicit trace. *)
Ltac find_event :=
  repeat first [apply list_elem_of_here | apply list_elem_of_further].

(** ** Scratch storage after a run of the video handler *)

(** X11: scratch storage after a run of the video handler: a run that
    made no call leaves the world as it was; any other run ends with the raw
    staged file absent; and no run changes any file other than the raw
    staged file and its [.processed] sibling. *)
Theorem handlerUploadVideo_scratch_frame env cfg req w r w' tr :
  Videos.handlerUploadVideo env cfg req w = (r, w', tr) ->
  (tr = [] -> w' = w)
  /\ (tr <> [] -> fs w' !! Videos.tempPath env = None)
  /\ (forall p, p <> Videos.tempPath env ->
                p <> Videos.tempPath env +:+ ".processed" ->
                fs w' !! p = fs w !! p).
Proof.
  intros H.
  unfold Videos.handlerUploadVideo in H. fold (Videos.tempPath env) in H.
  pose proof (tempPath_processed_neq env) as Hneq.
  run H; try probe_pure; simplify_eq/=;
    (split; [intros; try done|split; [intros; try done|intros p Hp1 Hp2]]);
    simplify_map_eq; done.
Qed.

Lemma handlerUploadVideo_scratch_frame_witness :
  let env := Scenario.base in
  let w := {| fs := {[ "/tmp/other.mp4" := [Byte.x07] ]};
              db := {[ Example.vid := Example.alice_video ]}; s3 := ∅ |} in
  let run := Videos.handlerUploadVideo env Example.cfg
               (Example.req "video" Example.mp4) w in
  (run.2 = [] -> run.1.2 = w)
  /\ (run.2 <> [] -> fs run.1.2 !! Videos.tempPath env = None)
  /\ (forall p, p <> Videos.tempPath env ->
                p <> Videos.tempPath env +:+ ".processed" ->
                fs run.1.2 !! p = fs w !! p).
Proof.
  intros env w run.
  apply (handlerUploadVideo_scratch_frame env Example.cfg
           (Example.req "video" Example.mp4) w run.1.1 run.1.2 run.2).
  vm_compute. reflexivity.
Defined.

(** ** The stores after a run of the video handler *)

(** X12: the record store is written only by a run that returns (a run
    that throws leaves it as it was), and the object store changes only under
    a key for which the run issued an upload. *)
Theorem handlerUploadVideo_stores env cfg req w r w' tr :
  Videos.handlerUploadVideo env cfg req w = (r, w', tr) ->
  ((exists e, r = Threw e) -> db w' = db w)
  /\ ((forall key path contentType, S3Upload key path contentType ∉ tr) ->
      s3 w' = s3 w)
  /\ (forall k, (forall path contentType, S3Upload k path contentType ∉ tr) ->
      s3 w' !! k = s3 w !! k).
Proof.
  intros H.
  unfold Videos.handlerUploadVideo in H. fold (Videos.tempPath env) in H.
  run H; try probe_pure; simplify_eq/=; (split; [|split]).
  all: first
    [ by intros [e' He']
    | intros Hno; first [done | exfalso; eapply Hno; find_event]
    | intros k Hno; first
        [ done
        | match goal with
          | |- <[?key := _]> _ !! _ = _ =>
              destruct (decide (k = key)) as [->|Hk];
              [exfalso; eapply Hno; find_event | by rewrite lookup_insert_ne]
          end ] ].
Qed.

Lemma handlerUploadVideo_stores_witness :
  let env := Example.env 1920 1080 1 None in
  let run := Videos.handlerUploadVideo env Example.cfg
               (Example.req "video" Example.mp4) Example.w0 in
  ((exists e, run.1.1 = Threw e) -> db run.1.2 = db Example.w0)
  /\ ((forall key path contentType, S3Upload key path contentType ∉ run.2) ->
      s3 run.1.2 = s3 Example.w0)
  /\ (forall k, (forall path contentType, S3Upload k path contentType ∉ run.2) ->
      s3 run.1.2 !! k = s3 Example.w0 !! k).
Proof.
  intros env run.
  apply (handlerUploadVideo_stores env Example.cfg
           (Example.req "video" Example.mp4) Example.w0 run.1.1 run.1.2 run.2).
  vm_compute. reflexivity.
Defined.

(** ** Failures of the video pipeline, stage by stage *)

Ltac no_event := intros; intros Hx; invert_elem Hx.

(** X13: when the write to scratch storage fails, its error is what the
    caller gets, no process is spawned, nothing is uploaded or committed, and
    whatever partial file the write left is deleted. *)
Theorem staging_failure_is_surfaced env cfg req w r w' tr e partial :
  Videos.handlerUploadVideo env cfg req w = (r, w', tr) ->
  BunWrite (Videos.tempPath env) ∈ tr ->
  Bun_write_outcome env (Videos.tempPath env) = WriteFailed e partial ->
  r = Threw e
  /\ (forall argv, BunSpawn argv ∉ tr)
  /\ (forall key path contentType, S3Upload key path contentType ∉ tr)
  /\ (forall v, UpdateVideo v ∉ tr)
  /\ fs w' = delete (Videos.tempPath env) (fs w)
  /\ db w' = db w /\ s3 w' = s3 w.
Proof.
  intros H Hin Hout.
  unfold Videos.handlerUploadVideo in H. fold (Videos.tempPath env) in H.
  run H; try probe_pure; simplify_map_eq; try (invert_elem Hin; fail).
  all: repeat split; try done; try no_event.
  all: first [by rewrite delete_insert_eq | symmetry; by apply delete_id].
Qed.

Lemma staging_failure_is_surfaced_witness :
  let partial := Some [Byte.x00] in
  let env := Scenario.with_write (WriteFailed Scenario.disk_full partial) Scenario.base in
  let run := Videos.handlerUploadVideo env Example.cfg
               (Example.req "video" Example.mp4) Example.w0 in
  run.1.1 = Threw Scenario.disk_full
  /\ (forall argv, BunSpawn argv ∉ run.2)
  /\ (forall key path contentType, S3Upload key path contentType ∉ run.2)
  /\ (forall v, UpdateVideo v ∉ run.2)
  /\ fs run.1.2 = delete (Videos.tempPath env) (fs Example.w0)
  /\ db run.1.2 = db Example.w0 /\ s3 run.1.2 = s3 Example.w0.
Proof.
  intros partial env run.
  apply (staging_failure_is_surfaced env Example.cfg
           (Example.req "video" Example.mp4) Example.w0 run.1.1 run.1.2 run.2
           Scenario.disk_full partial).
  - vm_compute. reflexivity.
  - apply list_elem_of_In. vm_compute. tauto.
  - reflexivity.
Defined.

(** X14: when the probe fails, its error reaches the caller unchanged,
    the run stops after the probe (no remux, no upload, no commit), and the
    staged file is deleted. *)
Theorem probe_failure_is_surfaced env cfg req w r w' tr e :
  Videos.handlerUploadVideo env cfg req w = (r, w', tr) ->
  BunSpawn (Videos.ffprobe_argv (Videos.tempPath env)) ∈ tr ->
  (Videos.getVideoAspectRatio env (Videos.tempPath env) w).1.1 = Threw e ->
  r = Threw e
  /\ tr = [BunWrite (Videos.tempPath env);
           BunSpawn (Videos.ffprobe_argv (Videos.tempPath env));
           BunDelete (Videos.tempPath env)]
  /\ fs w' = delete (Videos.tempPath env) (fs w)
  /\ db w' = db w /\ s3 w' = s3 w.
Proof.
  intros H Hin Hprobe.
  unfold Videos.handlerUploadVideo in H. fold (Videos.tempPath env) in H.
  run H; try probe_pure; simplify_map_eq; try (invert_elem Hin; fail).
  all: try (rewrite Hpure in Hprobe; simpl in Hprobe; simplify_eq).
  all: repeat split; try done; by rewrite ?delete_insert_eq.
Qed.

Lemma probe_failure_is_surfaced_witness :
  let env := Scenario.with_probe
               {| stdout := ""; stderr := "moov atom not found"; exited := 1;
                  output_file := None |}
               (Returned {| streams := None |}) Scenario.base in
  let run := Videos.handlerUploadVideo env Example.cfg
               (Example.req "video" Example.mp4) Example.w0 in
  run.1.1 = Threw (Error "ffprobe failed with exit code 1: moov atom not found")
  /\ run.2 = [BunWrite (Videos.tempPath env);
              BunSpawn (Videos.ffprobe_argv (Videos.tempPath env));
              BunDelete (Videos.tempPath env)]
  /\ fs run.1.2 = delete (Videos.tempPath env) (fs Example.w0)
  /\ db run.1.2 = db Example.w0 /\ s3 run.1.2 = s3 Example.w0.
Proof.
  intros env run.
  apply (probe_failure_is_surfaced env Example.cfg
           (Example.req "video" Example.mp4) Example.w0 run.1.1 run.1.2 run.2).
  - vm_compute. reflexivity.
  - apply list_elem_of_In. vm_compute. tauto.
  - vm_compute. reflexivity.
Defined.

(** X15: when the upload to the object store fails, its error is what
    the caller gets, [updateVideo] is not called, both stores are as before
    and the raw staged file is deleted. *)
Theorem storage_failure_is_surfaced env cfg req w r w' tr key path contentType e :
  Videos.handlerUploadVideo env cfg req w = (r, w', tr) ->
  S3Upload key path contentType ∈ tr ->
  s3_outcome env key = Some e ->
  r = Threw e
  /\ (forall v, UpdateVideo v ∉ tr)
  /\ db w' = db w /\ s3 w' = s3 w
  /\ fs w' !! Videos.tempPath env = None.
Proof.
  intros H Hin Hout.
  unfold Videos.handlerUploadVideo in H. fold (Videos.tempPath env) in H.
  pose proof (tempPath_processed_neq env) as Hneq.
  run H; try probe_pure; simplify_eq/=; try (invert_elem Hin; fail).
  all: invert_elem Hin; injection Hin as -> -> ->; simplify_map_eq.
  all: repeat split; try done; no_event.
Qed.

Lemma storage_failure_is_surfaced_witness :
  let env := Scenario.with_s3 (Some Scenario.s3_down) Scenario.base in
  let run := Videos.handlerUploadVideo env Example.cfg
               (Example.req "video" Example.mp4) Example.w0 in
  run.1.1 = Threw Scenario.s3_down
  /\ (forall v, UpdateVideo v ∉ run.2)
  /\ db run.1.2 = db Example.w0 /\ s3 run.1.2 = s3 Example.w0
  /\ fs run.1.2 !! Videos.tempPath env = None.
Proof.
  intros env run.
  apply (storage_failure_is_surfaced env Example.cfg
           (Example.req "video" Example.mp4) Example.w0 run.1.1 run.1.2 run.2
           ("landscape/" +:+ Videos.fileKey0 env)
           (Videos.tempPath env +:+ ".processed") "video/mp4" Scenario.s3_down).
  - vm_compute. reflexivity.
  - apply list_elem_of_In. vm_compute. tauto.
  - reflexivity.
Defined.

(** X16: when [updateVideo] fails, its error is what the caller gets and
    the record store is as before, but the object published under the key of
    the URL that was to be committed stays in the object store: nothing
    rolls the upload back. *)
Theorem commit_failure_leaves_orphan env cfg req w r w' tr v e :
  Videos.handlerUploadVideo env cfg req w = (r, w', tr) ->
  UpdateVideo v ∈ tr ->
  updateVideo_outcome env v = Some e ->
  r = Threw e
  /\ db w' = db w
  /\ (exists key b,
        S3Upload key (Videos.tempPath env +:+ ".processed") "video/mp4" ∈ tr
        /\ videoURL v = Some ("https://" +:+ s3CfDistribution cfg +:+ "/" +:+ key)
        /\ s3 w' !! key = Some ("video/mp4", b))
  /\ fs w' !! Videos.tempPath env = None.
Proof.
  intros H Hin Hout.
  unfold Videos.handlerUploadVideo in H. fold (Videos.tempPath env) in H.
  pose proof (tempPath_processed_neq env) as Hneq.
  run H; try probe_pure; simplify_eq/=; try (invert_elem Hin; fail).
  all: invert_elem Hin; injection Hin as ->; simplify_map_eq.
  all: gate_facts;
    try match goal with E : type _ = "video/mp4" |- _ => rewrite E in * end.
  all: repeat split; try done; do 2 eexists; repeat split;
    [find_event | by rewrite lookup_insert_eq].
Qed.

Lemma commit_failure_leaves_orphan_witness :
  let env := Example.env 1920 1080 0 (Some Scenario.db_busy) in
  let run := Videos.handlerUploadVideo env Example.cfg
               (Example.req "video" Example.mp4) Example.w0 in
  let v := set_videoURL ("https://d111.cloudfront.net/landscape/" +:+ Videos.fileKey0 env)
             Example.alice_video in
  run.1.1 = Threw Scenario.db_busy
  /\ db run.1.2 = db Example.w0
  /\ (exists key b,
        S3Upload key (Videos.tempPath env +:+ ".processed") "video/mp4" ∈ run.2
        /\ videoURL v = Some ("https://" +:+ s3CfDistribution Example.cfg +:+ "/" +:+ key)
        /\ s3 run.1.2 !! key = Some ("video/mp4", b))
  /\ fs run.1.2 !! Videos.tempPath env = None.
Proof.
  intros env run v.
  apply (commit_failure_leaves_orphan env Example.cfg
           (Example.req "video" Example.mp4) Example.w0 run.1.1 run.1.2 run.2 v
           Scenario.db_busy).
  - vm_compute. reflexivity.
  - apply list_elem_of_In. vm_compute. tauto.
  - reflexivity.
Defined.

(** ** Keys and paths *)

Lemma fileKey0_free env : occurrences slash (Videos.fileKey0 env) = O.
Proof.
  unfold Videos.fileKey0. rewrite occurrences_append.
  rewrite (all_chars_free is_hex_digit slash _ is_hex_digit_not_slash
             (toString_hex_digits _)).
  reflexivity.
Qed.

(** X17: every upload a run issues is of the [.processed] sibling of the
    scratch file, with content type video/mp4, under a key made of one of the
    three class names, a slash and the random file name; the key has exactly
    one slash and the scratch path lies directly under /tmp. *)
Theorem published_key_layout env cfg req w r w' tr key path contentType :
  Videos.handlerUploadVideo env cfg req w = (r, w', tr) ->
  S3Upload key path contentType ∈ tr ->
  path = Videos.tempPath env +:+ ".processed"
  /\ contentType = "video/mp4"
  /\ (exists aspectRatio,
        aspectRatio ∈ ["landscape"; "portrait"; "other"]
        /\ key = aspectRatio +:+ "/" +:+ Videos.fileKey0 env)
  /\ occurrences slash key = 1%nat
  /\ occurrences slash (Videos.tempPath env) = 2%nat.
Proof.
  intros H Hin.
  unfold Videos.handlerUploadVideo in H. fold (Videos.tempPath env) in H.
  run H; try probe_pure; simplify_eq/=; try (invert_elem Hin; fail).
  all: invert_elem Hin; injection Hin as -> -> ->; gate_facts.
  all: match goal with
       | Hp : forall w1, Videos.getVideoAspectRatio _ _ w1 = _ |- _ =>
           destruct (getVideoAspectRatio_returned _ _ _ _ _ _
                       (Hp {| fs := ∅; db := ∅; s3 := ∅ |}))
             as (wd & ht & more & c & _ & _ & _ & _ & _ & ->)
       end.
  all: split; [reflexivity|]; split; [assumption|];
    split; [exists (Classification_name c); split; [destruct c; set_solver | reflexivity]|];
    split; [rewrite !occurrences_append, fileKey0_free; by destruct c|];
    unfold Videos.tempPath; by rewrite occurrences_append, fileKey0_free.
Qed.

Lemma published_key_layout_witness :
  let env := Scenario.base in
  let run := Videos.handlerUploadVideo env Example.cfg
               (Example.req "video" Example.mp4) Example.w0 in
  let key := "landscape/" +:+ Videos.fileKey0 env in
  let path := Videos.tempPath env +:+ ".processed" in
  path = Videos.tempPath env +:+ ".processed"
  /\ "video/mp4" = "video/mp4"
  /\ (exists aspectRatio,
        aspectRatio ∈ ["landscape"; "portrait"; "other"]
        /\ key = aspectRatio +:+ "/" +:+ Videos.fileKey0 env)
  /\ occurrences slash key = 1%nat
  /\ occurrences slash (Videos.tempPath env) = 2%nat.
Proof.
  intros env run key path.
  apply (published_key_layout env Example.cfg (Example.req "video" Example.mp4)
           Example.w0 run.1.1 run.1.2 run.2 key path "video/mp4").
  - vm_compute. reflexivity.
  - apply list_elem_of_In. vm_compute. tauto.
Defined.

(** X18: two runs stage to the same scratch path only if they drew the
    same random bytes, and (for draws of equal length) the remuxed sibling of
    one run is never the raw staging path of another. *)
Theorem scratch_paths_do_not_collide env1 env2 :
  (Videos.tempPath env1 = Videos.tempPath env2 ->
   randomBytes env1 32 = randomBytes env2 32)
  /\ (List.length (randomBytes env1 32) = List.length (randomBytes env2 32) ->
      Videos.tempPath env1 +:+ ".processed" <> Videos.tempPath env2).
Proof.
  split.
  - unfold Videos.tempPath. intros H. injection H as H. by apply fileKey0_inj.
  - intros Hlen H. apply (f_equal String.length) in H.
    unfold Videos.tempPath, Videos.fileKey0 in H.
    rewrite !append_length, !toString_hex_length, Hlen in H. simpl in H. lia.
Qed.

Lemma scratch_paths_do_not_collide_witness :
  let env1 := Scenario.base in
  let env2 := Scenario.with_s3 (Some Scenario.s3_down) Scenario.base in
  randomBytes env1 32 = randomBytes env2 32
  /\ Videos.tempPath env1 +:+ ".processed" <> Videos.tempPath env2.
Proof.
  intros env1 env2. split.
  - apply (proj1 (scratch_paths_do_not_collide env1 env2)). reflexivity.
  - apply (proj2 (scratch_paths_do_not_collide env1 env2)). reflexivity.
Defined.

(** ** Authentication and ownership come first *)

(** X19: a request that fails authentication is refused by both
    handlers with an error that does not depend on the world: no call is
    made, and the answer is the same whether or not the video exists. *)
Theorem unauthenticated_request_is_refused_blind env cfg req e :
  authenticate env cfg req = Threw e ->
  (exists e1, forall w,
      Videos.handlerUploadVideo env cfg req w = (Threw e1, w, []))
  /\ (exists e2, forall w,
      Thumbnails.handlerUploadThumbnail env cfg req w = (Threw e2, w, [])).
Proof.
  unfold authenticate. intros Hauth.
  unfold Videos.handlerUploadVideo, Thumbnails.handlerUploadThumbnail.
  cbv beta iota zeta delta [bind lift ret throw].
  split.
  - destruct (negb (truthy_string (params req !! "videoId"))); [by eexists|].
    destruct (negb (validateUUID env _)); [by eexists|].
    destruct (getBearerToken env (headers req)) as [token|e0];
      [rewrite Hauth|]; by eexists.
  - destruct (negb (truthy_string (params req !! "videoId"))); [by eexists|].
    destruct (getBearerToken env (headers req)) as [token|e0];
      [rewrite Hauth|]; by eexists.
Qed.

Lemma unauthenticated_request_is_refused_blind_witness :
  let env := Scenario.with_auth (Threw Scenario.no_token) (Returned "alice")
               Scenario.base in
  let req := Example.req "video" Example.mp4 in
  (exists e1, forall w,
      Videos.handlerUploadVideo env Example.cfg req w = (Threw e1, w, []))
  /\ (exists e2, forall w,
      Thumbnails.handlerUploadThumbnail env Example.cfg req w = (Threw e2, w, [])).
Proof.
  intros env req.
  apply (unauthenticated_request_is_refused_blind env Example.cfg req Scenario.no_token).
  reflexivity.
Defined.

(** X20: an authenticated request for an existing video owned by someone
    else is refused by both handlers with UserForbiddenError, before the
    form data is looked at and with no call made. *)
Theorem non_owner_is_forbidden env cfg req w vid uid video :
  params req !! "videoId" = Some vid -> vid <> "" ->
  authenticate env cfg req = Returned uid ->
  db w !! vid = Some video ->
  userID video <> uid ->
  (validateUUID env vid = true ->
   Videos.handlerUploadVideo env cfg req w
   = (Threw (UserForbiddenError "You are not the owner of this video"), w, []))
  /\ Thumbnails.handlerUploadThumbnail env cfg req w
     = (Threw (UserForbiddenError "You are not the owner of this video"), w, []).
Proof.
  unfold authenticate. intros Hvid Hne Hauth Hdb Howner.
  apply String.eqb_neq in Hne. apply String.eqb_neq in Howner.
  destruct (getBearerToken env (headers req)) as [token|e0] eqn:Htok; [|discriminate].
  split; [intros Huuid|].
  - unfold Videos.handlerUploadVideo.
    rewrite Hvid. simpl. rewrite Hne. simpl. rewrite Huuid. simpl.
    cbv beta iota zeta delta [bind lift ret throw getVideo get_world].
    rewrite Htok, Hauth, Hdb. simpl. by rewrite Howner.
  - unfold Thumbnails.handlerUploadThumbnail.
    rewrite Hvid. simpl. rewrite Hne. simpl.
    cbv beta iota zeta delta [bind lift ret throw getVideo get_world].
    rewrite Htok, Hauth, Hdb. simpl. by rewrite Howner.
Qed.

Lemma non_owner_is_forbidden_witness :
  let env := Scenario.with_auth (Returned "t") (Returned "bob") Scenario.base in
  let req := Example.req "video" Example.mp4 in
  (validateUUID env Example.vid = true ->
   Videos.handlerUploadVideo env Example.cfg req Example.w0
   = (Threw (UserForbiddenError "You are not the owner of this video"), Example.w0, []))
  /\ Thumbnails.handlerUploadThumbnail env Example.cfg req Example.w0
     = (Threw (UserForbiddenError "You are not the owner of this video"), Example.w0, []).
Proof.
  intros env req.
  apply (non_owner_is_forbidden env Example.cfg req Example.w0 Example.vid "bob"
           Example.alice_video).
  - reflexivity.
  - discriminate.
  - reflexivity.
  - reflexivity.
  - discriminate.
Defined.

(** ** More on the thumbnail handler *)

(** X21: the thumbnail handler has no effect before every gate has
    passed: either the run made no call, left the world as it was and threw,
    or the id was non-empty, the token authenticated the owner of an existing
    record, the form carried a file of at most 10 MiB with a non-empty
    content type, and the first call was the write to the final asset path.
    The id is not required to be a UUID. *)
Theorem handlerUploadThumbnail_gates env cfg req w r w' tr :
  Thumbnails.handlerUploadThumbnail env cfg req w = (r, w', tr) ->
  (tr = [] /\ w' = w /\ exists e, r = Threw e)
  \/ (exists vid token video fd file,
        params req !! "videoId" = Some vid /\ vid <> ""
        /\ getBearerToken env (headers req) = Returned token
        /\ validateJWT env token (jwtSecret cfg) = Returned (userID video)
        /\ db w !! vid = Some video
        /\ formData req = Returned fd
        /\ fd !! "thumbnail" = Some (FormFile file)
        /\ size file <= 10485760
        /\ type file <> ""
        /\ head tr = Some (BunWrite (Thumbnails.getAssetDiskPath env cfg
                                       (vid +:+ mediaTypeToExt (type file))))).
Proof.
  intros H. unfold Thumbnails.handlerUploadThumbnail in H.
  destruct (params req !! "videoId") as [vid|] eqn:Hvid;
    [|injection H as <- <- <-; left; eauto].
  run H; simplify_eq/=; try (left; by eauto).
  all: right; gate_facts; subst; do 5 eexists; repeat split; eauto.
Qed.

Lemma handlerUploadThumbnail_gates_witness :
  let env := Scenario.base in
  let req := Example.req "thumbnail" Example.png in
  let run := Thumbnails.handlerUploadThumbnail env Example.cfg req Example.w0 in
  (run.2 = [] /\ run.1.2 = Example.w0 /\ exists e, run.1.1 = Threw e)
  \/ (exists vid token video fd file,
        params req !! "videoId" = Some vid /\ vid <> ""
        /\ getBearerToken env (headers req) = Returned token
        /\ validateJWT env token (jwtSecret Example.cfg) = Returned (userID video)
        /\ db Example.w0 !! vid = Some video
        /\ formData req = Returned fd
        /\ fd !! "thumbnail" = Some (FormFile file)
        /\ size file <= 10485760
        /\ type file <> ""
        /\ head run.2 = Some (BunWrite (Thumbnails.getAssetDiskPath env Example.cfg
                                          (vid +:+ mediaTypeToExt (type file))))).
Proof.
  intros env req run.
  apply (handlerUploadThumbnail_gates env Example.cfg req Example.w0
           run.1.1 run.1.2 run.2).
  vm_compute. reflexivity.
Defined.

(** A thumbnail upload that passes every gate, forwards. *)
Lemma handlerUploadThumbnail_accepts env cfg req w vid token video fd file :
  params req !! "videoId" = Some vid -> vid <> "" ->
  getBearerToken env (headers req) = Returned token ->
  validateJWT env token (jwtSecret cfg) = Returned (userID video) ->
  db w !! vid = Some video ->
  formData req = Returned fd ->
  fd !! "thumbnail" = Some (FormFile file) ->
  size file <= 10485760 ->
  type file <> "" ->
  let filename := vid +:+ mediaTypeToExt (type file) in
  let path := Thumbnails.getAssetDiskPath env cfg filename in
  let video' := set_thumbnailURL (getAssetUrl cfg filename) video in
  Bun_write_outcome env path = Written ->
  updateVideo_outcome env video' = None ->
  Thumbnails.handlerUploadThumbnail env cfg req w
  = (Returned {| status := 200; payload := PVideo video' |},
     {| fs := <[path := bytes file]> (fs w);
        db := <[videoID video := video']> (db w);
        s3 := s3 w |},
     [BunWrite path; UpdateVideo video']).
Proof.
  intros Hvid Hne Htok Hjwt Hdb Hfd Hfile Hsize Htype filename path video' Hw Hu.
  subst filename path video'.
  apply String.eqb_neq in Hne. apply String.eqb_neq in Htype.
  unfold Thumbnails.handlerUploadThumbnail.
  rewrite Hvid. simpl. rewrite Hne. simpl.
  cbv beta iota zeta delta [bind lift ret throw getVideo get_world put_world emit
                            Bun_write updateVideo respondWithJSON].
  rewrite Htok, Hjwt, Hdb. simpl. rewrite String.eqb_refl. simpl.
  rewrite Hfd, Hfile.
  destruct (Z.gtb_spec (size file) Thumbnails.MAX_UPLOAD_SIZE) as [Hgt|_];
    [change Thumbnails.MAX_UPLOAD_SIZE with 10485760 in Hgt; lia|].
  rewrite Htype. simpl. rewrite Hw, Hu. reflexivity.
Qed.

(** X22: thumbnails are keyed by video id and content type: after a
    successful upload, a second upload for the same video with a file of the
    same content type succeeds with the same calls and the same response,
    replaces the bytes at the same asset path, and leaves the record and
    every other file as they were. *)
Theorem second_thumbnail_overwrites_first env cfg req1 req2 w resp1 w1 tr1
    fd1 fd2 file1 file2 :
  params req2 = params req1 -> headers req2 = headers req1 ->
  formData req1 = Returned fd1 -> fd1 !! "thumbnail" = Some (FormFile file1) ->
  formData req2 = Returned fd2 -> fd2 !! "thumbnail" = Some (FormFile file2) ->
  type file2 = type file1 -> size file2 <= 10485760 ->
  Thumbnails.handlerUploadThumbnail env cfg req1 w = (Returned resp1, w1, tr1) ->
  exists vid resp2 w2,
    params req1 !! "videoId" = Some vid
    /\ Thumbnails.handlerUploadThumbnail env cfg req2 w1 = (Returned resp2, w2, tr1)
    /\ let path := Thumbnails.getAssetDiskPath env cfg
                     (vid +:+ mediaTypeToExt (type file1)) in
       fs w1 !! path = Some (bytes file1)
       /\ fs w2 !! path = Some (bytes file2)
       /\ (forall p, p <> path -> fs w2 !! p = fs w !! p)
       /\ resp2 = resp1
       /\ db w2 = db w1.
Proof.
  intros Hparams Hheaders Hfd1 Hfile1 Hfd2 Hfile2 Htype Hsize H.
  destruct w as [wfs wdb ws3].
  pose proof H as Hrun. unfold Thumbnails.handlerUploadThumbnail in Hrun.
  destruct (params req1 !! "videoId") as [vid|] eqn:Hvid; [|discriminate Hrun].
  run Hrun; simplify_eq/=; gate_facts; subst.
  set (filename := vid +:+ mediaTypeToExt (type file1)) in *.
  set (path := Thumbnails.getAssetDiskPath env cfg filename) in *.
  set (video' := set_thumbnailURL (getAssetUrl cfg filename) v) in *.
  assert (Hv' : exists v1, <[videoID v := video']> wdb !! vid = Some v1
                           /\ userID v1 = userID v
                           /\ set_thumbnailURL (getAssetUrl cfg filename) v1 = video'
                           /\ videoID v1 = videoID v).
  { destruct (decide (videoID v = vid)) as [Heq|Hneq].
    - exists video'. rewrite Heq, lookup_insert_eq. by repeat split.
    - exists v. rewrite lookup_insert_ne by done. by repeat split. }
  destruct Hv' as (v1 & Hv1 & Hu1 & Hset & Hid).
  exists vid. do 2 eexists. split; [reflexivity|]. split.
  - erewrite (handlerUploadThumbnail_accepts env cfg req2 _ vid _ v1 fd2 file2);
      rewrite ?Hparams, ?Hheaders, ?Htype, ?Hu1; fold filename path; rewrite ?Hset;
      eauto.
  - cbv zeta. fold filename path. simpl.
    rewrite Hid.
    repeat split; first
      [ by rewrite lookup_insert_eq
      | apply insert_insert_eq
      | intros p Hp; by rewrite !lookup_insert_ne ].
Qed.

Lemma second_thumbnail_overwrites_first_witness :
  let env := Scenario.base in
  let req1 := Example.req "thumbnail" Example.png in
  let req2 := Example.req "thumbnail" Scenario.png2 in
  let run1 := Thumbnails.handlerUploadThumbnail env Example.cfg req1 Example.w0 in
  let resp1 := respondWithJSON 200 (PVideo (set_thumbnailURL
                 "http://localhost:8091/assets/7f2b0f5e-6c1d-4a57-9d8e-2b1c3a4d5e6f.png"
                 Example.alice_video)) in
  exists vid resp2 w2,
    params req1 !! "videoId" = Some vid
    /\ Thumbnails.handlerUploadThumbnail env Example.cfg req2 run1.1.2
       = (Returned resp2, w2, run1.2)
    /\ let path := Thumbnails.getAssetDiskPath env Example.cfg
                     (vid +:+ mediaTypeToExt (type Example.png)) in
       fs run1.1.2 !! path = Some (bytes Example.png)
       /\ fs w2 !! path = Some (bytes Scenario.png2)
       /\ (forall p, p <> path -> fs w2 !! p = fs Example.w0 !! p)
       /\ resp2 = resp1
       /\ db w2 = db run1.1.2.
Proof.
  intros env req1 req2 run1 resp1.
  apply (second_thumbnail_overwrites_first env Example.cfg req1 req2 Example.w0
           resp1 run1.1.2 run1.2
           {[ "thumbnail" := FormFile Example.png ]}
           {[ "thumbnail" := FormFile Scenario.png2 ]}
           Example.png Scenario.png2).
  - reflexivity.
  - reflexivity.
  - reflexivity.
  - reflexivity.
  - reflexivity.
  - reflexivity.
  - reflexivity.
  - vm_compute. discriminate.
  - vm_compute. reflexivity.
Defined.

(** X23: the thumbnail handler never touches the object store, leaves
    the record store as it was whenever it throws, and changes no file other
    than one it wrote. *)
Theorem handlerUploadThumbnail_frame env cfg req w r w' tr :
  Thumbnails.handlerUploadThumbnail env cfg req w = (r, w', tr) ->
  s3 w' = s3 w
  /\ ((exists e, r = Threw e) -> db w' = db w)
  /\ (forall p, BunWrite p ∉ tr -> fs w' !! p = fs w !! p).
Proof.
  intros H.
  apply handlerUploadThumbnail_run in H
    as [(-> & -> & _)|(vid & video & fd & file & Hvid & Hdb & _ & _ & H)];
    [by repeat split|].
  cbv zeta in H.
  destruct H as (Hdb' & Hs3 & [(e & partial & _ & -> & -> & Hfs)|(_ & -> & Hfs & Hr)]).
  - split; [assumption|]. split; [done|].
    intros p Hp. rewrite Hfs. destruct partial; [|done].
    rewrite lookup_insert_ne; [done|]. intros <-. apply Hp. find_event.
  - split; [assumption|]. split.
    + intros [e ->]. done.
    + intros p Hp. rewrite Hfs, lookup_insert_ne; [done|].
      intros <-. apply Hp. find_event.
Qed.

Lemma handlerUploadThumbnail_frame_witness :
  let env := Scenario.base in
  let w := {| fs := {[ "/srv/assets/other.png" := [Byte.x07] ]};
              db := {[ Example.vid := Example.alice_video ]}; s3 := ∅ |} in
  let run := Thumbnails.handlerUploadThumbnail env Example.cfg
               (Example.req "thumbnail" Example.png) w in
  s3 run.1.2 = s3 w
  /\ ((exists e, run.1.1 = Threw e) -> db run.1.2 = db w)
  /\ (forall p, BunWrite p ∉ run.2 -> fs run.1.2 !! p = fs w !! p).
Proof.
  intros env w run.
  apply (handlerUploadThumbnail_frame env Example.cfg
           (Example.req "thumbnail" Example.png) w run.1.1 run.1.2 run.2).
  vm_compute. reflexivity.
Defined.

(** X24: when the write of the thumbnail fails, its error is what the
    caller gets, [updateVideo] is not called and the record store is as
    before; a partial file stays at the asset path, since nothing deletes
    it. *)
Theorem thumbnail_write_failure env cfg req w r w' tr p e partial :
  Thumbnails.handlerUploadThumbnail env cfg req w = (r, w', tr) ->
  BunWrite p ∈ tr ->
  Bun_write_outcome env p = WriteFailed e partial ->
  r = Threw e
  /\ tr = [BunWrite p]
  /\ db w' = db w
  /\ fs w' = (if partial is Some b then <[p := b]> (fs w) else fs w).
Proof.
  intros H Hin Hout.
  apply handlerUploadThumbnail_run in H
    as [(-> & _ & _)|(vid & video & fd & file & Hvid & Hdb & _ & _ & H)];
    [invert_elem Hin|].
  cbv zeta in H.
  destruct H as (Hdb' & Hs3 & [(e' & partial' & Hw & -> & -> & Hfs)|(Hw & -> & _)]);
    invert_elem Hin; injection Hin as ->; rewrite Hw in Hout; [|discriminate].
  injection Hout as <- <-. by repeat split.
Qed.

Lemma thumbnail_write_failure_witness :
  let partial := Some [Byte.x89] in
  let env := Scenario.with_write (WriteFailed Scenario.disk_full partial) Scenario.base in
  let run := Thumbnails.handlerUploadThumbnail env Example.cfg
               (Example.req "thumbnail" Example.png) Example.w0 in
  let p := "/srv/assets/7f2b0f5e-6c1d-4a57-9d8e-2b1c3a4d5e6f.png" in
  run.1.1 = Threw Scenario.disk_full
  /\ run.2 = [BunWrite p]
  /\ db run.1.2 = db Example.w0
  /\ fs run.1.2 = (if partial is Some b then <[p := b]> (fs Example.w0)
                   else fs Example.w0).
Proof.
  intros partial env run p.
  apply (thumbnail_write_failure env Example.cfg
           (Example.req "thumbnail" Example.png) Example.w0 run.1.1 run.1.2 run.2
           p Scenario.disk_full partial).
  - vm_compute. reflexivity.
  - apply list_elem_of_In. vm_compute. tauto.
  - reflexivity.
Defined.

(** ** The earlier revision of the video handler *)

Ltac pick_direct n :=
  exists n;
  match goal with
  | v : Video |- _ => exists v
  end;
  first [ exists []; split; [lia|]; split; [reflexivity|]; split; [by left|]
        | exists cleanup_log; split; [lia|]; split; [reflexivity|]; split; [by right|] ].

(** X25: the earlier revision of the video handler either makes no call
    and leaves the world as it was, or its calls are a non-empty prefix of
    write, object-store write, updateVideo, followed by the delete of the
    scratch file; it then leaves scratch storage as it was apart from the
    scratch path, which is absent, and it leaves the record store as it was
    whenever it throws. *)
Theorem DirectUpload_calls_in_order env cfg req w r w' tr :
  DirectUpload.handlerUploadVideo env cfg req w = (r, w', tr) ->
  let tmp := "/tmp/" +:+ toString_hex (randomBytes env 32) +:+ ".mp4" in
  (tr = [] /\ w' = w)
  \/ exists n video log,
      (1 <= n <= 3)%nat
      /\ tr = (take n (direct_calls env cfg video) ++ BunDelete tmp :: log)%list
      /\ (log = [] \/ log = cleanup_log)
      /\ ((exists resp, r = Returned resp) -> n = 3%nat)
      /\ ((exists e, r = Threw e) -> db w' = db w)
      /\ fs w' = delete tmp (fs w).
Proof.
  intros H tmp. subst tmp. unfold DirectUpload.handlerUploadVideo in H.
  run H; simplify_map_eq; try (by left).
  all: right; unfold direct_calls; cbv zeta.
  all: first [ pick_direct 1%nat | pick_direct 2%nat | pick_direct 3%nat ].
  all: split; [try (intros [? ?]; discriminate); reflexivity|].
  all: split; [try (intros [? ?]; discriminate); try reflexivity; try done|].
  all: first [done | by rewrite delete_insert_eq | symmetry; by apply delete_id].
Qed.

Lemma DirectUpload_calls_in_order_witness :
  let env := Example.env 1920 1080 0 (Some Scenario.db_busy) in
  let run := DirectUpload.handlerUploadVideo env Example.cfg
               (Example.req "video" Example.mp4) Example.w0 in
  let tmp := "/tmp/" +:+ toString_hex (randomBytes env 32) +:+ ".mp4" in
  (run.2 = [] /\ run.1.2 = Example.w0)
  \/ exists n video log,
      (1 <= n <= 3)%nat
      /\ run.2 = (take n (direct_calls env Example.cfg video) ++ BunDelete tmp :: log)%list
      /\ (log = [] \/ log = cleanup_log)
      /\ ((exists resp, run.1.1 = Returned resp) -> n = 3%nat)
      /\ ((exists e, run.1.1 = Threw e) -> db run.1.2 = db Example.w0)
      /\ fs run.1.2 = delete tmp (fs Example.w0).
Proof.
  intros env run.
  apply (DirectUpload_calls_in_order env Example.cfg
           (Example.req "video" Example.mp4) Example.w0 run.1.1 run.1.2 run.2).
  vm_compute. reflexivity.
Defined.

(** X26: a successful run of the earlier revision answers with a null
    payload, stores the uploaded bytes as video/mp4 under the flat key
    [<hex>.mp4], commits the URL
    [https://<bucket>.s3.<region>.amazonaws.com/<hex>.mp4] to the record,
    and leaves nothing in scratch storage. *)
Theorem DirectUpload_success env cfg req w resp w' tr :
  DirectUpload.handlerUploadVideo env cfg req w = (Returned resp, w', tr) ->
  exists vid video fd file,
    params req !! "videoId" = Some vid /\ db w !! vid = Some video
    /\ formData req = Returned fd /\ fd !! "video" = Some (FormFile file)
    /\ let key := toString_hex (randomBytes env 32) +:+ ".mp4" in
       let url := "https://" +:+ s3Bucket cfg +:+ ".s3." +:+ s3Region cfg
                  +:+ ".amazonaws.com/" +:+ key in
       resp = {| status := 200; payload := PNull |}
       /\ tr = (direct_calls env cfg video ++ [BunDelete ("/tmp/" +:+ key)])%list
       /\ db w' = <[videoID video := set_videoURL url video]> (db w)
       /\ s3 w' = <[key := ("video/mp4", bytes file)]> (s3 w)
       /\ fs w' = delete ("/tmp/" +:+ key) (fs w).
Proof.
  intros H. unfold DirectUpload.handlerUploadVideo in H.
  destruct (params req !! "videoId") as [vid|] eqn:Hvid; [|discriminate H].
  run H; simplify_map_eq; gate_facts;
    match goal with E : type _ = "video/mp4" |- _ => rewrite E in * end.
  all: do 4 eexists; repeat split; eauto; by rewrite delete_insert_eq.
Qed.

Lemma DirectUpload_success_witness :
  let env := Scenario.base in
  let req := Example.req "video" Example.mp4 in
  let run := DirectUpload.handlerUploadVideo env Example.cfg req Example.w0 in
  exists vid video fd file,
    params req !! "videoId" = Some vid /\ db Example.w0 !! vid = Some video
    /\ formData req = Returned fd /\ fd !! "video" = Some (FormFile file)
    /\ let key := toString_hex (randomBytes env 32) +:+ ".mp4" in
       let url := "https://" +:+ s3Bucket Example.cfg +:+ ".s3." +:+ s3Region Example.cfg
                  +:+ ".amazonaws.com/" +:+ key in
       respondWithJSON 200 PNull = {| status := 200; payload := PNull |}
       /\ run.2 = (direct_calls env Example.cfg video ++ [BunDelete ("/tmp/" +:+ key)])%list
       /\ db run.1.2 = <[videoID video := set_videoURL url video]> (db Example.w0)
       /\ s3 run.1.2 = <[key := ("video/mp4", bytes file)]> (s3 Example.w0)
       /\ fs run.1.2 = delete ("/tmp/" +:+ key) (fs Example.w0).
Proof.
  intros env req run.
  apply (DirectUpload_success env Example.cfg req Example.w0
           (respondWithJSON 200 PNull) run.1.2 run.2).
  vm_compute. reflexivity.
Defined.

